(** * Front-end API client ([front-end/src/utils/api.js])

    A shallow embedding of the request helper [fetchJson] and of the ten
    exported operations built on it, together with the properties the
    specification states about them.

    The module is JavaScript running on a browser host.  The parts of the
    host the module calls ([fetch], [Response.json], [console.error],
    [JSON.stringify], [Object.entries], [URL], promises) are modelled in
    the first half of the file, each as far as the module uses it. *)

From Stdlib Require Import ZArith NArith List String Ascii Bool.
From Stdlib Require Import DecimalString Permutation Sorted.
Import ListNotations.
Open Scope string_scope.
#[local] Set Warnings "-register-all".

(** ** JavaScript values *)

Definition MAX_SAFE_INTEGER : Z := 9007199254740991.

Definition is_safe_integer (n : Z) : bool :=
  (Z.abs n <=? MAX_SAFE_INTEGER)%Z.

(** The numbers of the model are the safe integers: each is a number of
    JavaScript, and prints as its decimal digits. *)
Record SafeInteger : Type := {
  integer : Z;
  integer_is_safe : is_safe_integer integer = true
}.

(** The values that flow through the module: what [JSON.parse] can produce
    (numbers being safe integers), [undefined], and error objects.  A plain
    object, with [Object.prototype] as its prototype, is its list of own
    data properties in insertion order; no value of the model is
    callable. *)
Inductive Value : Type :=
| VUndefined
| VNull
| VBool (b : bool)
| VNumber (n : SafeInteger)
| VStr (s : string)
| VArr (items : list Value)
| VObj (props : list (string * Value))
| VError (name message stack : string).

(** [VNum n], for a numeral [n], is the number [n]. *)
Notation "'VNum' n" :=
  (VNumber {| integer := n%Z; integer_is_safe := eq_refl |})
  (at level 10, n at level 9, only parsing).

(** The result of evaluating an expression or a block: a value, or a
    [throw]. *)
Inductive Completion (A : Type) : Type :=
| Return (a : A)
| Throw (e : Value).
Arguments Return {A} a.
Arguments Throw {A} e.

(** The state of a settled promise. *)
Inductive Settled : Type :=
| Resolved (v : Value)
| Rejected (reason : Value).

(** [ToBoolean]: the test of [if (v)]. *)
Definition truthy (v : Value) : bool :=
  match v with
  | VUndefined | VNull => false
  | VBool b => b
  | VNumber n => negb (integer n =? 0)%Z
  | VStr s => negb (s =? "")
  | VArr _ | VObj _ | VError _ _ _ => true
  end.

(** The [TypeError] and [SyntaxError] objects the engine raises. *)
Definition TypeError (message : string) : Value :=
  VError "TypeError" message ("TypeError: " ++ message).

Definition SyntaxError (message : string) : Value :=
  VError "SyntaxError" message ("SyntaxError: " ++ message).

Fixpoint own_property (props : list (string * Value)) (key : string)
  : option Value :=
  match props with
  | [] => None
  | (k, v) :: rest => if k =? key then Some v else own_property rest key
  end.

(** Member access [v.key], for the keys the module reads ([error], [data],
    [name], [stack]; no primitive, no array and no prototype has one of
    them). *)
Definition get (v : Value) (key : string) : Completion Value :=
  match v with
  | VUndefined =>
      Throw (TypeError ("Cannot read properties of undefined (reading '"
                          ++ key ++ "')"))
  | VNull =>
      Throw (TypeError ("Cannot read properties of null (reading '"
                          ++ key ++ "')"))
  | VObj props =>
      Return (match own_property props key with
              | Some x => x
              | None => VUndefined
              end)
  | VError name message stack =>
      Return (if key =? "name" then VStr name
              else if key =? "message" then VStr message
              else if key =? "stack" then VStr stack
              else VUndefined)
  | VBool _ | VNumber _ | VStr _ | VArr _ => Return VUndefined
  end.

Definition Number_toString (n : SafeInteger) : string :=
  NilZero.string_of_int (Z.to_int (integer n)).

Fixpoint join (sep : string) (parts : list string) : string :=
  match parts with
  | [] => ""
  | [p] => p
  | p :: rest => p ++ sep ++ join sep rest
  end.

(** [ToString], the coercion a template literal applies to [${v}].  An
    array is joined from the texts of its elements, left to right.  An
    object is converted through its [toString]: the one of
    [Object.prototype], unless the object has an own property of that
    name, which in this model is not callable, so that the conversion
    throws. *)
Fixpoint ToString (v : Value) : Completion string :=
  match v with
  | VUndefined => Return "undefined"
  | VNull => Return "null"
  | VBool true => Return "true"
  | VBool false => Return "false"
  | VNumber n => Return (Number_toString n)
  | VStr s => Return s
  | VArr items =>
      match
        (fix texts (items : list Value) : Completion (list string) :=
           match items with
           | [] => Return []
           | x :: rest =>
               match match x with
                     | VUndefined | VNull => Return ""
                     | _ => ToString x
                     end with
               | Throw e => Throw e
               | Return text =>
                   match texts rest with
                   | Throw e => Throw e
                   | Return others => Return (text :: others)
                   end
               end
           end) items
      with
      | Throw e => Throw e
      | Return parts => Return (join "," parts)
      end
  | VObj props =>
      match own_property props "toString" with
      | Some _ => Throw (TypeError "Cannot convert object to primitive value")
      | None => Return "[object Object]"
      end
  | VError name message _ =>
      Return (if name =? "" then message
              else if message =? "" then name
              else name ++ ": " ++ message)
  end.

(** The method call [v.toString()]: a [TypeError] on [null] and
    [undefined], and on an object whose own [toString] property hides the
    inherited method; otherwise the inherited method, which gives what
    [ToString] gives. *)
Definition toString (v : Value) : Completion string :=
  match v with
  | VUndefined =>
      Throw (TypeError "Cannot read properties of undefined (reading 'toString')")
  | VNull =>
      Throw (TypeError "Cannot read properties of null (reading 'toString')")
  | VObj props =>
      match own_property props "toString" with
      | Some _ => Throw (TypeError "value.toString is not a function")
      | None => Return "[object Object]"
      end
  | _ => ToString v
  end.
(** ** Property enumeration order *)

(** An array index is a canonical decimal numeral below [2^32 - 1]. *)
Definition array_index (key : string) : option N :=
  match NilZero.uint_of_string key with
  | Some u =>
      let n := N.of_uint u in
      if (NilZero.string_of_uint (N.to_uint n) =? key) && (n <? 4294967295)%N
      then Some n else None
  | None => None
  end.

Fixpoint insert_by_index {A : Type} (i : N) (p : string * A)
  (sorted : list (N * (string * A))) : list (N * (string * A)) :=
  match sorted with
  | [] => [(i, p)]
  | (j, q) :: rest =>
      if (i <? j)%N then (i, p) :: sorted
      else (j, q) :: insert_by_index i p rest
  end.

Fixpoint index_properties {A : Type} (props : list (string * A))
  : list (N * (string * A)) :=
  match props with
  | [] => []
  | (k, v) :: rest =>
      match array_index k with
      | Some i => insert_by_index i (k, v) (index_properties rest)
      | None => index_properties rest
      end
  end.

Definition named_properties {A : Type} (props : list (string * A))
  : list (string * A) :=
  filter (fun p => match array_index (fst p) with
                   | Some _ => false
                   | None => true
                   end) props.

(** [Object.entries(o)] for a plain object: the array-index keys in
    ascending order, then the other keys in insertion order. *)
Definition Object_entries {A : Type} (props : list (string * A))
  : list (string * A) :=
  (map snd (index_properties props) ++ named_properties props)%list.

(** ** [JSON.stringify] *)

Definition quote_char : ascii := "034"%char.
Definition backslash_char : ascii := "092"%char.

Definition hex_digit (n : N) : ascii :=
  match String.get (N.to_nat n) "0123456789abcdef" with
  | Some c => c
  | None => "0"%char
  end.

Definition escape_char (c : ascii) : string :=
  let n := N_of_ascii c in
  if (n =? 34)%N then String backslash_char (String quote_char "")
  else if (n =? 92)%N then String backslash_char (String backslash_char "")
  else if (n =? 8)%N then String backslash_char "b"
  else if (n =? 12)%N then String backslash_char "f"
  else if (n =? 10)%N then String backslash_char "n"
  else if (n =? 13)%N then String backslash_char "r"
  else if (n =? 9)%N then String backslash_char "t"
  else if (n <? 32)%N then
    String backslash_char
      ("u00" ++ String (hex_digit (n / 16)) (String (hex_digit (n mod 16)) ""))
  else String c "".

Fixpoint escape_string (s : string) : string :=
  match s with
  | EmptyString => ""
  | String c rest => escape_char c ++ escape_string rest
  end.

Definition QuoteJSONString (s : string) : string :=
  String quote_char (escape_string s ++ String quote_char "").

Fixpoint members (entries : list (string * option string)) : list string :=
  match entries with
  | [] => []
  | (k, Some s) :: rest => (QuoteJSONString k ++ ":" ++ s) :: members rest
  | (_, None) :: rest => members rest
  end.

(** [JSON.stringify(v)] without replacer or indentation; [None] is the
    [undefined] it returns for [undefined].  A property whose value is
    [undefined] is left out, an [undefined] array element prints as
    [null], an error object has no enumerable property of its own; a
    [toJSON] property is ignored, no value of the model being callable. *)
Fixpoint JSON_stringify (v : Value) : option string :=
  match v with
  | VUndefined => None
  | VNull => Some "null"
  | VBool true => Some "true"
  | VBool false => Some "false"
  | VNumber n => Some (Number_toString n)
  | VStr s => Some (QuoteJSONString s)
  | VArr items =>
      Some ("[" ++ join "," (map (fun x => match JSON_stringify x with
                                           | Some s => s
                                           | None => "null"
                                           end) items) ++ "]")
  | VObj props =>
      Some ("{" ++ join "," (members (Object_entries
                (map (fun p => (fst p, JSON_stringify (snd p))) props))) ++ "}")
  | VError _ _ _ => Some "{}"
  end.

(** ** The host: network, console, module loader *)

(** A [URL] object, kept as the text its constructor was given and the
    pairs added afterwards through [searchParams.append], in call order.
    The normalised address the host derives from the text is not
    modelled. *)
Record URL : Type := {
  input : string;
  appended : list (string * string)
}.

(** The object [new URL(text)] makes of a text it accepts. *)
Definition URL_of_text (text : string) : URL :=
  {| input := text; appended := [] |}.

Definition searchParams_append (url : URL) (key value : string) : URL :=
  {| input := input url; appended := (appended url ++ [(key, value)])%list |}.

(** The first argument of [fetch]: a string or a [URL] object. *)
Inductive Resource : Type :=
| ResourceText (text : string)
| ResourceURL (url : URL).

Inductive AbortSignal : Type :=
| Signal (id : nat).

Definition Headers : Type := list (string * string).

(** The options object handed to [fetch]; an absent property is [None]. *)
Record RequestInit : Type := {
  method : option string;
  init_headers : Headers;
  body : option string;
  signal : option AbortSignal
}.

(** The statuses whose responses have no body. *)
Definition null_body_status (status : Z) : bool :=
  ((status =? 101) || (status =? 103) || (status =? 204)
   || (status =? 205) || (status =? 304))%Z.

(** A response: its status and, for a response that has a body, what
    parsing that body as JSON gives. *)
Record Response : Type := {
  status : Z;
  content : Completion Value
}.

(** [response.json()]: the parsed body; a response without a body has
    nothing to parse. *)
Definition json (response : Response) : Completion Value :=
  if null_body_status (status response)
  then Throw (SyntaxError "Unexpected end of JSON input")
  else content response.

(** A formatting helper, as the module sees it: called on a value, it
    returns a value or throws. *)
Definition Formatter : Type := Value -> Completion Value.

Record Host : Type := {
  (** [process.env.REACT_APP_API_BASE_URL] *)
  REACT_APP_API_BASE_URL : option string;
  (** the default export of the module at a path *)
  import_default : string -> Formatter;
  (** whether the URL parser accepts a text as an absolute URL *)
  URL_parses : string -> bool;
  (** what [await fetch(resource, init)] produces *)
  fetch : Resource -> RequestInit -> Completion Response
}.

(** [new URL(text)]: a [TypeError] for a text that is not an absolute
    URL. *)
Definition new_URL (h : Host) (text : string) : Completion URL :=
  if URL_parses h text then Return (URL_of_text text)
  else Throw (TypeError "Invalid URL").

(** What a call does on the host, in order. *)
Inductive Event : Type :=
| EFetch (resource : Resource) (init : RequestInit)
| EJson
| EConsoleError (v : Value).

(** ** Statements, promises *)

(** A run of statements: the events performed and the completion. *)
Definition Action (A : Type) : Type := (list Event * Completion A)%type.

Definition ret {A : Type} (a : A) : Action A := ([], Return a).

Definition throw {A : Type} (e : Value) : Action A := ([], Throw e).

Definition lift {A : Type} (c : Completion A) : Action A := ([], c).

Definition bind {A B : Type} (m : Action A) (k : A -> Action B) : Action B :=
  match m with
  | (t, Return a) => let (t', r) := k a in ((t ++ t')%list, r)
  | (t, Throw e) => (t, Throw e)
  end.

Notation "x <- m ;; k" := (bind m (fun x => k))
  (at level 61, m at next level, right associativity).
Notation "m ;;; k" := (bind m (fun _ => k))
  (at level 61, right associativity).

Definition try_catch {A : Type} (block : Action A)
  (handler : Value -> Action A) : Action A :=
  match block with
  | (t, Return a) => (t, Return a)
  | (t, Throw e) => let (t', r) := handler e in ((t ++ t')%list, r)
  end.

(** A call of an async function, run until its promise settles. *)
Definition Promise : Type := (list Event * Settled)%type.

(** The body of an async function returns what its promise is resolved
    with, a value ([Resolved]) or an already rejected promise
    ([Rejected]); an uncaught [throw] rejects the promise. *)
Definition async (body : Action Settled) : Promise :=
  match body with
  | (t, Return s) => (t, s)
  | (t, Throw e) => (t, Rejected e)
  end.

Definition await (p : Promise) : Action Value :=
  match p with
  | (t, Resolved v) => (t, Return v)
  | (t, Rejected e) => (t, Throw e)
  end.

(** [p.then(f)] *)
Definition then_ (p : Promise) (f : Formatter) : Promise :=
  match p with
  | (t, Resolved v) =>
      (t, match f v with
          | Return v' => Resolved v'
          | Throw e => Rejected e
          end)
  | (t, Rejected e) => (t, Rejected e)
  end.

Definition await_fetch (h : Host) (resource : Resource) (init : RequestInit)
  : Action Response :=
  ([EFetch resource init], fetch h resource init).

Definition await_json (response : Response) : Action Value :=
  ([EJson], json response).

Definition console_error (v : Value) : Action unit :=
  ([EConsoleError v], Return tt).

(** [v === "text"] *)
Definition is_string (v : Value) (text : string) : bool :=
  match v with
  | VStr s => s =? text
  | _ => false
  end.

(** ** The module [api.js] *)

Section Api.

Context (host : Host).

(** Lines 5-6: both names are bound to the default export of
    [./format-reservation-date]. *)
Definition formatReservationDate : Formatter :=
  import_default host "./format-reservation-date".

Definition formatReservationTime : Formatter :=
  import_default host "./format-reservation-date".

(** [process.env.REACT_APP_API_BASE_URL || "http://localhost:5001"] *)
Definition API_BASE_URL : string :=
  match REACT_APP_API_BASE_URL host with
  | Some text => if text =? "" then "http://localhost:5001" else text
  | None => "http://localhost:5001"
  end.

Definition headers : Headers := [("Content-Type", "application/json")].

(** The [try] block of [fetchJson] (lines 34-45).  [return
    Promise.reject(...)] returns a rejected promise: it leaves the
    function without passing through [catch]. *)
Definition fetchJson_try (url : Resource) (options : RequestInit)
  : Action Settled :=
  response <- await_fetch host url options ;;
  if (status response =? 204)%Z then ret (Resolved VNull)
  else
    payload <- await_json response ;;
    error <- lift (get payload "error") ;;
    if truthy error then ret (Rejected (VObj [("message", error)]))
    else
      data <- lift (get payload "data") ;;
      ret (Resolved data).

(** The [catch] block of [fetchJson] (lines 47-51). *)
Definition fetchJson_catch (onCancel : Value) (error : Value)
  : Action Settled :=
  name <- lift (get error "name") ;;
  if negb (is_string name "AbortError") then
    stack <- lift (get error "stack") ;;
    console_error stack ;;;
    throw error
  else ret (Resolved onCancel).

(** A call with two arguments is a call with [onCancel = VUndefined]. *)
Definition fetchJson (url : Resource) (options : RequestInit)
  (onCancel : Value) : Promise :=
  async (try_catch (fetchJson_try url options) (fetchJson_catch onCancel)).

(** The [forEach] over [Object.entries(params)], threading the [URL]
    object it updates. *)
Fixpoint append_entries (entries : list (string * Value)) (url : URL)
  : Action URL :=
  match entries with
  | [] => ret url
  | (key, value) :: rest =>
      text <- lift (toString value) ;;
      append_entries rest (searchParams_append url key text)
  end.

Definition listReservations (params : list (string * Value))
  (signal : option AbortSignal) : Promise :=
  async (
    url <- lift (new_URL host (API_BASE_URL ++ "/reservations")) ;;
    url <- append_entries (Object_entries params) url ;;
    result <- await (then_ (then_
                (fetchJson (ResourceURL url)
                   {| method := None; init_headers := headers;
                      body := None; signal := signal |}
                   (VArr []))
                formatReservationDate) formatReservationTime) ;;
    ret (Resolved result)).

Definition listTables (signal : option AbortSignal) : Promise :=
  async (
    url <- lift (new_URL host (API_BASE_URL ++ "/tables")) ;;
    let options := {| method := Some "GET"; init_headers := headers;
                      body := None; signal := signal |} in
    result <- await (fetchJson (ResourceURL url) options (VArr [])) ;;
    ret (Resolved result)).

Definition createReservation (newReservation : Value)
  (signal : option AbortSignal) : Promise :=
  async (
    let url := API_BASE_URL ++ "/reservations" in
    let options := {| method := Some "POST"; init_headers := headers;
                      body := JSON_stringify (VObj [("data", newReservation)]);
                      signal := signal |} in
    _ <- await (fetchJson (ResourceText url) options VUndefined) ;;
    ret (Resolved (VStr "seated"))).

Definition createTable (newTable : Value) (signal : option AbortSignal)
  : Promise :=
  async (
    let url := API_BASE_URL ++ "/tables" in
    let options := {| method := Some "POST"; init_headers := headers;
                      body := JSON_stringify (VObj [("data", newTable)]);
                      signal := signal |} in
    result <- await (fetchJson (ResourceText url) options VUndefined) ;;
    ret (Resolved result)).

Definition readReservations (id : Value) (signal : option AbortSignal)
  : Promise :=
  async (
    id_text <- lift (ToString id) ;;
    url <- lift (new_URL host (API_BASE_URL ++ "/reservations/" ++ id_text)) ;;
    result <- await (then_ (then_
                (fetchJson (ResourceURL url)
                   {| method := None; init_headers := headers;
                      body := None; signal := signal |}
                   (VArr []))
                formatReservationDate) formatReservationTime) ;;
    ret (Resolved result)).

Definition seatTable (tableId reservationId : Value)
  (signal : option AbortSignal) : Promise :=
  async (
    table_text <- lift (ToString tableId) ;;
    let url := API_BASE_URL ++ "/tables/" ++ table_text ++ "/seat" in
    let options :=
      {| method := Some "PUT"; init_headers := headers;
         body := JSON_stringify
                   (VObj [("data", VObj [("reservation_id", reservationId)])]);
         signal := signal |} in
    result <- await (fetchJson (ResourceText url) options VUndefined) ;;
    ret (Resolved result)).

Definition clearTable (tableId : Value) (signal : option AbortSignal)
  : Promise :=
  async (
    table_text <- lift (ToString tableId) ;;
    let url := API_BASE_URL ++ "/tables/" ++ table_text ++ "/seat" in
    let options := {| method := Some "DELETE"; init_headers := headers;
                      body := None; signal := signal |} in
    result <- await (fetchJson (ResourceText url) options VUndefined) ;;
    ret (Resolved result)).

Definition searchReservationsByPhone (phoneNumber : Value)
  (signal : option AbortSignal) : Promise :=
  async (
    phone_text <- lift (ToString phoneNumber) ;;
    url <- lift (new_URL host (API_BASE_URL ++ "/reservations?mobile_number="
                                 ++ phone_text)) ;;
    result <- await (then_ (then_
                (fetchJson (ResourceURL url)
                   {| method := None; init_headers := headers;
                      body := None; signal := signal |}
                   (VArr []))
                formatReservationDate) formatReservationTime) ;;
    ret (Resolved result)).

Definition cancelReservation (reservationId : Value)
  (signal : option AbortSignal) : Promise :=
  async (
    id_text <- lift (ToString reservationId) ;;
    let url := API_BASE_URL ++ "/reservations/" ++ id_text ++ "/status" in
    let options :=
      {| method := Some "PUT"; init_headers := headers;
         body := JSON_stringify
                   (VObj [("data", VObj [("status", VStr "cancelled")])]);
         signal := signal |} in
    result <- await (fetchJson (ResourceText url) options VUndefined) ;;
    ret (Resolved result)).

Definition editReservation (reservationId updatedReservation : Value)
  (signal : option AbortSignal) : Promise :=
  async (
    id_text <- lift (ToString reservationId) ;;
    let url := API_BASE_URL ++ "/reservations/" ++ id_text in
    let options :=
      {| method := Some "PUT"; init_headers := headers;
         body := JSON_stringify (VObj [("data", updatedReservation)]);
         signal := signal |} in
    result <- await (fetchJson (ResourceText url) options VUndefined) ;;
    ret (Resolved result)).

(** A call of one of the ten exported operations, with its arguments. *)
Inductive Call : Type :=
| CallListReservations (params : list (string * Value))
| CallListTables
| CallCreateReservation (newReservation : Value)
| CallCreateTable (newTable : Value)
| CallReadReservations (id : Value)
| CallSeatTable (tableId reservationId : Value)
| CallClearTable (tableId : Value)
| CallSearchReservationsByPhone (phoneNumber : Value)
| CallCancelReservation (reservationId : Value)
| CallEditReservation (reservationId updatedReservation : Value).

Definition perform (call : Call) (signal : option AbortSignal) : Promise :=
  match call with
  | CallListReservations params => listReservations params signal
  | CallListTables => listTables signal
  | CallCreateReservation r => createReservation r signal
  | CallCreateTable t => createTable t signal
  | CallReadReservations id => readReservations id signal
  | CallSeatTable t r => seatTable t r signal
  | CallClearTable t => clearTable t signal
  | CallSearchReservationsByPhone p => searchReservationsByPhone p signal
  | CallCancelReservation r => cancelReservation r signal
  | CallEditReservation r u => editReservation r u signal
  end.

End Api.

(** ** Example hosts

    The two formatting modules and the server are outside this module.
    These instances stand in for them in the worked examples: a date
    formatter that keeps the first ten characters of [reservation_date],
    a time formatter that keeps the first five of [reservation_time], and
    a network that gives every request the same answer. *)
Module Fixtures.

Fixpoint set_property (props : list (string * Value)) (key : string)
  (v : Value) : list (string * Value) :=
  match props with
  | [] => [(key, v)]
  | (k, old) :: rest =>
      if k =? key then (k, v) :: rest
      else (k, old) :: set_property rest key v
  end.

Definition keep_prefix (field : string) (len : nat) (reservation : Value)
  : Completion Value :=
  match reservation with
  | VObj props =>
      match own_property props field with
      | Some (VStr text) =>
          Return (VObj (set_property props field
                          (VStr (substring 0 len text))))
      | _ => Throw (TypeError ("Cannot read properties of undefined "
                                 ++ "(reading 'match')"))
      end
  | _ => Throw (TypeError ("Cannot read properties of undefined "
                             ++ "(reading 'match')"))
  end.

Fixpoint map_completion (f : Value -> Completion Value) (items : list Value)
  : Completion (list Value) :=
  match items with
  | [] => Return []
  | x :: rest =>
      match f x with
      | Throw e => Throw e
      | Return y =>
          match map_completion f rest with
          | Throw e => Throw e
          | Return ys => Return (y :: ys)
          end
      end
  end.

Definition format_each (f : Value -> Completion Value) : Formatter :=
  fun reservations =>
    match reservations with
    | VUndefined => Return (VArr [])
    | VArr items =>
        match map_completion f items with
        | Return formatted => Return (VArr formatted)
        | Throw e => Throw e
        end
    | single => f single
    end.

Definition date_module : Formatter :=
  format_each (keep_prefix "reservation_date" 10).

Definition time_module : Formatter :=
  format_each (keep_prefix "reservation_time" 5).

Definition modules (path : string) : Formatter :=
  if path =? "./format-reservation-date" then date_module
  else if path =? "./format-reservation-time" then time_module
  else fun v => Return v.

(** A host whose network answers every request with [answer], and whose
    URL parser is asked about addresses under the default base only. *)
Definition answering (answer : Completion Response) : Host :=
  {| REACT_APP_API_BASE_URL := None;
     import_default := modules;
     URL_parses := fun text => prefix "http://localhost:5001/" text;
     fetch := fun _ _ => answer |}.

Definition AbortError : Value :=
  VError "AbortError" "The user aborted a request."
    "AbortError: The user aborted a request.".

Definition NetworkError : Value :=
  VError "TypeError" "Failed to fetch" "TypeError: Failed to fetch".

Definition SyntaxError : Value :=
  VError "SyntaxError" "Unexpected end of JSON input"
    "SyntaxError: Unexpected end of JSON input".

Definition a_reservation : Value :=
  VObj [("reservation_id", VNum 1);
        ("reservation_date", VStr "2024-01-01T00:00:00.000Z");
        ("reservation_time", VStr "18:30:00")].

End Fixtures.

(** ** Reading aids for the statements below *)

(** What [.then(f).then(g)] makes of a promise resolved with [v]. *)
Definition through (f g : Formatter) (v : Value) : Settled :=
  snd (then_ (then_ ([], Resolved v) f) g).

(** The call [v.toString()] returns. *)
Definition has_toString (v : Value) : bool :=
  match toString v with
  | Return _ => true
  | Throw _ => false
  end.





(** The [fetch] calls among the events of a run, in order. *)
Fixpoint requests (events : list Event) : list (Resource * RequestInit) :=
  match events with
  | [] => []
  | EFetch resource init :: rest => (resource, init) :: requests rest
  | _ :: rest => requests rest
  end.

(** The run [p] made a request during which the [try] block of
    [fetchJson] threw [e]. *)
Definition request_throws (h : Host) (p : Promise) (e : Value) : Prop :=
  exists u o, In (EFetch u o) (fst p) /\ snd (fetchJson_try h u o) = Throw e.

(** The address text of a request as the module wrote it: the string it
    handed to [fetch], or to the [URL] constructor. *)
Definition resource_text (r : Resource) : string :=
  match r with
  | ResourceText text => text
  | ResourceURL url => input url
  end.

(** The arguments of the [console.error] calls of a run, in order. *)
Fixpoint logged (events : list Event) : list Value :=
  match events with
  | [] => []
  | EConsoleError v :: rest => v :: logged rest
  | _ :: rest => logged rest
  end.

(** The operations whose last statement is [return await fetchJson(url,
    options)], with two arguments (lines 117, 147, 163, 194, 211). *)
Definition is_mutation (call : Call) : bool :=
  match call with
  | CallCreateTable _ | CallSeatTable _ _ | CallClearTable _
  | CallCancelReservation _ | CallEditReservation _ _ => true
  | _ => false
  end.

(** The operations that end in [.then(formatReservationDate)
    .then(formatReservationTime)] (lines 66-68, 128-130, 174-176). *)
Definition is_reservation_query (call : Call) : bool :=
  match call with
  | CallListReservations _ | CallReadReservations _
  | CallSearchReservationsByPhone _ => true
  | _ => false
  end.

(** A JSON body that is neither an object nor [null]. *)
Definition is_bare (payload : Value) : bool :=
  match payload with
  | VBool _ | VNumber _ | VStr _ | VArr _ => true
  | _ => false
  end.

(** ** The query an address text carries *)










(** ** Induction on values *)

Section ValueInduction.

Variable P : Value -> Prop.
Hypothesis HUndefined : P VUndefined.
Hypothesis HNull : P VNull.
Hypothesis HBool : forall b, P (VBool b).
Hypothesis HNumber : forall n, P (VNumber n).
Hypothesis HStr : forall s, P (VStr s).
Hypothesis HArr : forall items, Forall P items -> P (VArr items).
Hypothesis HObj :
  forall props, Forall (fun p => P (snd p)) props -> P (VObj props).
Hypothesis HError : forall name message stack, P (VError name message stack).

Fixpoint Value_nested_ind (v : Value) : P v :=
  match v with
  | VUndefined => HUndefined
  | VNull => HNull
  | VBool b => HBool b
  | VNumber n => HNumber n
  | VStr s => HStr s
  | VArr items =>
      HArr items
        ((fix each (l : list Value) : Forall P l :=
            match l with
            | [] => Forall_nil P
            | x :: rest => Forall_cons x (Value_nested_ind x) (each rest)
            end) items)
  | VObj props =>
      HObj props
        ((fix each (l : list (string * Value))
            : Forall (fun p => P (snd p)) l :=
            match l with
            | [] => Forall_nil _
            | p :: rest =>
                Forall_cons p (Value_nested_ind (snd p)) (each rest)
            end) props)
  | VError name message stack => HError name message stack
  end.

End ValueInduction.

(** * Properties *)

(** ** Promise plumbing *)

(** [return await p] hands [p] on as it is. *)
Lemma async_return_await (p : Promise) :
  async (result <- await p ;; ret (Resolved result)) = p.
Proof.
  destruct p as [t [v | e]]; cbn; [rewrite app_nil_r|]; reflexivity.
Qed.

(** [await p; return c] keeps the events and the rejection of [p] and
    replaces what it resolved with. *)
Lemma async_await_then_return (p : Promise) (c : Value) :
  async (_ <- await p ;; ret (Resolved c)) =
    (fst p, match snd p with
            | Resolved _ => Resolved c
            | Rejected e => Rejected e
            end).
Proof.
  destruct p as [t [v | e]]; cbn; [rewrite app_nil_r|]; reflexivity.
Qed.

Lemma then_events (p : Promise) (f : Formatter) : fst (then_ p f) = fst p.
Proof. destruct p as [t [v | e]]; reflexivity. Qed.

(** ** The [catch] block *)

Lemma catch_abort (onCancel e : Value) :
  get e "name" = Return (VStr "AbortError") ->
  fetchJson_catch onCancel e = ([], Return (Resolved onCancel)).
Proof. intros Hn. unfold fetchJson_catch, lift, bind. now rewrite Hn. Qed.

Lemma get_defined (e : Value) (key : string) :
  e <> VUndefined -> e <> VNull -> exists v, get e key = Return v.
Proof. destruct e; cbn; intros; try congruence; eauto. Qed.

Lemma catch_other (onCancel e : Value) :
  e <> VUndefined -> e <> VNull ->
  get e "name" <> Return (VStr "AbortError") ->
  exists stack, get e "stack" = Return stack
    /\ fetchJson_catch onCancel e = ([EConsoleError stack], Throw e).
Proof.
  intros Hu Hn Hname.
  destruct (get_defined e "name" Hu Hn) as [name Hg].
  destruct (get_defined e "stack" Hu Hn) as [stack Hs].
  exists stack. split; [exact Hs|].
  unfold fetchJson_catch, lift, bind, console_error, throw.
  rewrite Hg, Hs.
  assert (is_string name "AbortError" = false) as ->.
  { destruct name; cbn; try reflexivity.
    destruct (String.eqb_spec s "AbortError"); [|reflexivity].
    subst. congruence. }
  reflexivity.
Qed.

Lemma catch_events (onCancel e : Value) u o :
  ~ In (EFetch u o) (fst (fetchJson_catch onCancel e)).
Proof.
  unfold fetchJson_catch, lift, bind, console_error, throw, ret.
  destruct (get e "name") as [name | e']; cbn; [|tauto].
  destruct (is_string name "AbortError"); cbn; [tauto|].
  destruct (get e "stack"); cbn; [|tauto].
  intros [H | []]. discriminate.
Qed.

(** ** [fetchJson], case by case *)

Section FetchJsonCases.

Context (h : Host) (url : Resource) (options : RequestInit) (onCancel : Value).

Lemma fetchJson_no_content r :
  fetch h url options = Return r -> status r = 204%Z ->
  fetchJson h url options onCancel = ([EFetch url options], Resolved VNull).
Proof.
  intros Hf Hs.
  unfold fetchJson, fetchJson_try, await_fetch, bind, try_catch, async.
  rewrite Hf, Hs. reflexivity.
Qed.

Lemma fetchJson_envelope r payload error :
  fetch h url options = Return r -> status r <> 204%Z ->
  json r = Return payload -> get payload "error" = Return error ->
  fetchJson h url options onCancel =
    ([EFetch url options; EJson],
     if truthy error then Rejected (VObj [("message", error)])
     else match get payload "data" with
          | Return data => Resolved data
          | Throw e => Rejected e
          end).
Proof.
  intros Hf Hs Hj He. apply Z.eqb_neq in Hs.
  unfold fetchJson, fetchJson_try, await_fetch, await_json, bind, try_catch,
    async, lift.
  rewrite Hf, Hs, Hj, He. cbn.
  destruct (truthy error); cbn; [reflexivity|].
  destruct payload; cbn in *; try discriminate; reflexivity.
Qed.

Lemma fetchJson_fetch_throws e :
  fetch h url options = Throw e ->
  fetchJson h url options onCancel =
    async (let (t, r) := fetchJson_catch onCancel e in
           (EFetch url options :: t, r)).
Proof.
  intros Hf.
  unfold fetchJson, fetchJson_try, await_fetch, bind, try_catch.
  rewrite Hf. reflexivity.
Qed.

Lemma fetchJson_json_throws r e :
  fetch h url options = Return r -> status r <> 204%Z -> json r = Throw e ->
  fetchJson h url options onCancel =
    async (let (t, r) := fetchJson_catch onCancel e in
           (EFetch url options :: EJson :: t, r)).
Proof.
  intros Hf Hs Hj. apply Z.eqb_neq in Hs.
  unfold fetchJson, fetchJson_try, await_fetch, await_json, bind, try_catch.
  rewrite Hf, Hs, Hj. reflexivity.
Qed.

Lemma fetchJson_payload_throws r payload e :
  fetch h url options = Return r -> status r <> 204%Z ->
  json r = Return payload -> get payload "error" = Throw e ->
  fetchJson h url options onCancel =
    async (let (t, r) := fetchJson_catch onCancel e in
           (EFetch url options :: EJson :: t, r)).
Proof.
  intros Hf Hs Hj He. apply Z.eqb_neq in Hs.
  unfold fetchJson, fetchJson_try, await_fetch, await_json, bind, try_catch,
    lift.
  rewrite Hf, Hs, Hj, He. reflexivity.
Qed.

Lemma caught_events (before : list Event) e :
  exists logged,
    fst (async (let (t, r) := fetchJson_catch onCancel e in
                ((before ++ t)%list, r))) = (before ++ logged)%list
    /\ forall u o, ~ In (EFetch u o) logged.
Proof.
  pose proof (catch_events onCancel e) as Hc.
  destruct (fetchJson_catch onCancel e) as [t [s | e']]; cbn in *;
    exists t; split; auto.
Qed.

(** One call of [fetchJson] performs one [fetch], the one it was asked
    for, before anything else. *)
Lemma fetchJson_one_fetch :
  exists rest, fst (fetchJson h url options onCancel)
               = EFetch url options :: rest
               /\ forall u o, ~ In (EFetch u o) rest.
Proof.
  destruct (fetch h url options) as [r | e] eqn:Hf.
  - destruct (Z.eq_dec (status r) 204) as [Hs | Hs].
    + rewrite (fetchJson_no_content r Hf Hs). exists [].
      split; [reflexivity | intros u o []].
    + assert (forall e,
        exists rest,
          fst (async (let (t, r) := fetchJson_catch onCancel e in
                      (EFetch url options :: EJson :: t, r)))
          = EFetch url options :: rest
          /\ forall u o, ~ In (EFetch u o) rest) as Hcatch.
      { intros e.
        destruct (caught_events [EFetch url options; EJson] e)
          as (logged & Hl & Hno).
        exists (EJson :: logged). split; [exact Hl|].
        intros u o [H | H]; [discriminate | exact (Hno u o H)]. }
      destruct (json r) as [payload | e] eqn:Hj.
      * destruct (get payload "error") as [error | e] eqn:He.
        -- rewrite (fetchJson_envelope r payload error Hf Hs Hj He).
           exists [EJson]. split; [reflexivity|].
           intros u o [H | []]. discriminate.
        -- rewrite (fetchJson_payload_throws r payload e Hf Hs Hj He).
           apply Hcatch.
      * rewrite (fetchJson_json_throws r e Hf Hs Hj). apply Hcatch.
  - rewrite (fetchJson_fetch_throws e Hf).
    destruct (caught_events [EFetch url options] e) as (logged & Hl & Hno).
    exists logged. split; [exact Hl | exact Hno].
Qed.

Lemma fetchJson_request u o :
  In (EFetch u o) (fst (fetchJson h url options onCancel)) ->
  u = url /\ o = options.
Proof.
  destruct fetchJson_one_fetch as (rest & -> & Hrest).
  intros [H | H]; [inversion H; auto | destruct (Hrest u o H)].
Qed.

End FetchJsonCases.

(** ** The exported operations in terms of [fetchJson] *)

Lemma then_then (p : Promise) (f g : Formatter) :
  then_ (then_ p f) g =
    (fst p, match snd p with
            | Resolved v => through f g v
            | Rejected e => Rejected e
            end).
Proof.
  destruct p as [t [v | e]]; cbn; [|reflexivity].
  unfold through. cbn. destruct (f v); reflexivity.
Qed.

Lemma promise_eta (p : Promise) :
  p = (fst p, match snd p with
              | Resolved v => Resolved v
              | Rejected e => Rejected e
              end).
Proof. destruct p as [t [v | e]]; reflexivity. Qed.

(** A statement that throws before anything was asked of the host
    rejects the promise with no event. *)
Lemma async_lift {A : Type} (c : Completion A) (k : A -> Action Settled) :
  async (x <- lift c ;; k x) =
    match c with
    | Return a => async (k a)
    | Throw e => ([], Rejected e)
    end.
Proof.
  destruct c as [a | e]; cbn; [|reflexivity]. now destruct (k a).
Qed.

Lemma append_entries_events entries url :
  fst (append_entries entries url) = [].
Proof.
  revert url. induction entries as [| [key value] rest IH]; intros url.
  - reflexivity.
  - cbn. destruct (toString value) as [text | e]; cbn; [|reflexivity].
    specialize (IH (searchParams_append url key text)).
    destruct (append_entries rest (searchParams_append url key text))
      as [t r]. cbn in *. now subst.
Qed.


Lemma append_entries_input entries url t url' :
  append_entries entries url = (t, Return url') -> input url' = input url.
Proof.
  revert url t url'.
  induction entries as [| [key value] rest IH]; intros url t url'.
  - cbn. intros H. now injection H as _ <-.
  - cbn. destruct (toString value) as [text | e]; cbn; [|discriminate].
    destruct (append_entries rest (searchParams_append url key text))
      as [t' [u | e]] eqn:Hrest; [|discriminate].
    intros H. injection H as _ <-. now rewrite (IH _ _ _ Hrest).
Qed.

Lemma ToString_throws_TypeError (v e : Value) :
  ToString v = Throw e -> get e "name" = Return (VStr "TypeError").
Proof.
  revert e.
  induction v as [| | b | n | s | items IHitems | props _ | name message stack]
    using Value_nested_ind; intros e; cbn; try discriminate.
  - destruct b; discriminate.
  - revert e. induction IHitems as [| x rest Hx _ IHrest]; intros e; cbn;
      [discriminate|].
    destruct (match x with
              | VUndefined | VNull => Return ""
              | _ => ToString x
              end) as [text | ex] eqn:Hxe.
    + specialize (IHrest e). cbn in IHrest.
      destruct ((fix texts (items : list Value) :
                   Completion (list string) :=
                   match items with
                   | [] => Return []
                   | x :: rest =>
                       match match x with
                             | VUndefined | VNull => Return ""
                             | _ => ToString x
                             end with
                       | Throw e => Throw e
                       | Return text =>
                           match texts rest with
                           | Throw e => Throw e
                           | Return others => Return (text :: others)
                           end
                       end
                   end) rest) as [others | er]; [discriminate|].
      exact IHrest.
    + intros H. injection H as <-.
      destruct x; try discriminate; exact (Hx _ Hxe).
  - destruct (own_property props "toString"); [|discriminate].
    intros H. injection H as <-. reflexivity.
Qed.

Lemma toString_throws_TypeError (v : Value) e :
  toString v = Throw e -> get e "name" = Return (VStr "TypeError").
Proof.
  destruct v as [| | b | n | s | items | props | name message stack];
    try exact (ToString_throws_TypeError _ e);
    cbn; try (intros H; injection H as <-; reflexivity).
  destruct (own_property props "toString"); [|discriminate].
  intros H. injection H as <-. reflexivity.
Qed.

Lemma append_entries_rejected entries url :
  forallb (fun p => has_toString (snd p)) entries = false ->
  exists e, append_entries entries url = ([], Throw e)
            /\ get e "name" = Return (VStr "TypeError").
Proof.
  revert url. induction entries as [| [key value] rest IH]; intros url.
  - discriminate.
  - cbn [forallb append_entries snd]. unfold has_toString at 1.
    destruct (toString value) as [text | e] eqn:Hv.
    + cbn. intros H.
      destruct (IH (searchParams_append url key text) H) as (e & -> & Hn).
      exists e. split; [reflexivity | exact Hn].
    + intros _. cbn. exists e. split; [reflexivity|].
      exact (toString_throws_TypeError value e Hv).
Qed.

Lemma listReservations_eq h params signal :
  listReservations h params signal =
    match new_URL h (API_BASE_URL h ++ "/reservations") with
    | Throw e => ([], Rejected e)
    | Return url0 =>
        match append_entries (Object_entries params) url0 with
        | (_, Throw e) => ([], Rejected e)
        | (_, Return url) =>
            then_ (then_
              (fetchJson h (ResourceURL url)
                 {| method := None; init_headers := headers;
                    body := None; signal := signal |} (VArr []))
              (formatReservationDate h)) (formatReservationTime h)
        end
    end.
Proof.
  unfold listReservations. rewrite async_lift.
  destruct (new_URL h (API_BASE_URL h ++ "/reservations")) as [url0 | e];
    [|reflexivity].
  pose proof (append_entries_events (Object_entries params) url0) as Hev.
  destruct (append_entries _ _) as [t [url | e]]; cbn in Hev; subst t.
  - pose proof (async_return_await (then_ (then_
        (fetchJson h (ResourceURL url)
           {| method := None; init_headers := headers;
              body := None; signal := signal |} (VArr []))
        (formatReservationDate h)) (formatReservationTime h))) as Hp.
    unfold bind at 1. cbn [app].
    destruct (then_ _ _) as [t [v | e]]; cbn in *; exact Hp.
  - reflexivity.
Qed.

Lemma listTables_eq h signal :
  listTables h signal =
    match new_URL h (API_BASE_URL h ++ "/tables") with
    | Throw e => ([], Rejected e)
    | Return url =>
        fetchJson h (ResourceURL url)
          {| method := Some "GET"; init_headers := headers; body := None;
             signal := signal |} (VArr [])
    end.
Proof.
  unfold listTables. rewrite async_lift.
  destruct (new_URL _ _); [|reflexivity]. cbv zeta. apply async_return_await.
Qed.

Lemma createReservation_eq h newReservation signal :
  createReservation h newReservation signal =
    let p := fetchJson h (ResourceText (API_BASE_URL h ++ "/reservations"))
               {| method := Some "POST"; init_headers := headers;
                  body := JSON_stringify (VObj [("data", newReservation)]);
                  signal := signal |} VUndefined in
    (fst p, match snd p with
            | Resolved _ => Resolved (VStr "seated")
            | Rejected e => Rejected e
            end).
Proof. unfold createReservation. cbv zeta. apply async_await_then_return. Qed.

Lemma createTable_eq h newTable signal :
  createTable h newTable signal =
    fetchJson h (ResourceText (API_BASE_URL h ++ "/tables"))
      {| method := Some "POST"; init_headers := headers;
         body := JSON_stringify (VObj [("data", newTable)]);
         signal := signal |} VUndefined.
Proof. unfold createTable. cbv zeta. apply async_return_await. Qed.

Lemma readReservations_eq h id signal :
  readReservations h id signal =
    match ToString id with
    | Throw e => ([], Rejected e)
    | Return text =>
        match new_URL h (API_BASE_URL h ++ "/reservations/" ++ text) with
        | Throw e => ([], Rejected e)
        | Return url =>
            then_ (then_
              (fetchJson h (ResourceURL url)
                 {| method := None; init_headers := headers; body := None;
                    signal := signal |} (VArr []))
              (formatReservationDate h)) (formatReservationTime h)
        end
    end.
Proof.
  unfold readReservations. rewrite async_lift.
  destruct (ToString id); [|reflexivity]. rewrite async_lift.
  destruct (new_URL _ _); [|reflexivity]. apply async_return_await.
Qed.

Lemma searchReservationsByPhone_eq h phoneNumber signal :
  searchReservationsByPhone h phoneNumber signal =
    match ToString phoneNumber with
    | Throw e => ([], Rejected e)
    | Return text =>
        match new_URL h (API_BASE_URL h ++ "/reservations?mobile_number="
                           ++ text) with
        | Throw e => ([], Rejected e)
        | Return url =>
            then_ (then_
              (fetchJson h (ResourceURL url)
                 {| method := None; init_headers := headers; body := None;
                    signal := signal |} (VArr []))
              (formatReservationDate h)) (formatReservationTime h)
        end
    end.
Proof.
  unfold searchReservationsByPhone. rewrite async_lift.
  destruct (ToString phoneNumber); [|reflexivity]. rewrite async_lift.
  destruct (new_URL _ _); [|reflexivity]. apply async_return_await.
Qed.

Lemma seatTable_eq h tableId reservationId signal :
  seatTable h tableId reservationId signal =
    match ToString tableId with
    | Throw e => ([], Rejected e)
    | Return text =>
        fetchJson h
          (ResourceText (API_BASE_URL h ++ "/tables/" ++ text ++ "/seat"))
          {| method := Some "PUT"; init_headers := headers;
             body := JSON_stringify
                       (VObj [("data",
                               VObj [("reservation_id", reservationId)])]);
             signal := signal |} VUndefined
    end.
Proof.
  unfold seatTable. rewrite async_lift.
  destruct (ToString tableId); [|reflexivity]. cbv zeta.
  apply async_return_await.
Qed.

Lemma clearTable_eq h tableId signal :
  clearTable h tableId signal =
    match ToString tableId with
    | Throw e => ([], Rejected e)
    | Return text =>
        fetchJson h
          (ResourceText (API_BASE_URL h ++ "/tables/" ++ text ++ "/seat"))
          {| method := Some "DELETE"; init_headers := headers; body := None;
             signal := signal |} VUndefined
    end.
Proof.
  unfold clearTable. rewrite async_lift.
  destruct (ToString tableId); [|reflexivity]. cbv zeta.
  apply async_return_await.
Qed.

Lemma cancelReservation_eq h reservationId signal :
  cancelReservation h reservationId signal =
    match ToString reservationId with
    | Throw e => ([], Rejected e)
    | Return text =>
        fetchJson h
          (ResourceText (API_BASE_URL h ++ "/reservations/" ++ text
                           ++ "/status"))
          {| method := Some "PUT"; init_headers := headers;
             body := JSON_stringify
                       (VObj [("data", VObj [("status", VStr "cancelled")])]);
             signal := signal |} VUndefined
    end.
Proof.
  unfold cancelReservation. rewrite async_lift.
  destruct (ToString reservationId); [|reflexivity]. cbv zeta.
  apply async_return_await.
Qed.

Lemma editReservation_eq h reservationId updatedReservation signal :
  editReservation h reservationId updatedReservation signal =
    match ToString reservationId with
    | Throw e => ([], Rejected e)
    | Return text =>
        fetchJson h
          (ResourceText (API_BASE_URL h ++ "/reservations/" ++ text))
          {| method := Some "PUT"; init_headers := headers;
             body := JSON_stringify (VObj [("data", updatedReservation)]);
             signal := signal |} VUndefined
    end.
Proof.
  unfold editReservation. rewrite async_lift.
  destruct (ToString reservationId); [|reflexivity]. cbv zeta.
  apply async_return_await.
Qed.

Lemma new_URL_input h text url :
  new_URL h text = Return url -> url = URL_of_text text.
Proof.
  unfold new_URL. destruct (URL_parses h text); [|discriminate].
  now intros [= <-].
Qed.

(** A reservation query either rejects before it asks anything, or is one
    call of [fetchJson] with the fallback [[]], followed by the two [then]
    steps. *)
Lemma reservation_query_shape h call signal :
  is_reservation_query call = true ->
  (exists e, perform h call signal = ([], Rejected e))
  \/ exists url,
       perform h call signal =
         then_ (then_
           (fetchJson h (ResourceURL url)
              {| method := None; init_headers := headers; body := None;
                 signal := signal |} (VArr []))
           (formatReservationDate h)) (formatReservationTime h).
Proof.
  destruct call; cbn [is_reservation_query perform]; try discriminate;
    intros _.
  - rewrite listReservations_eq.
    destruct (new_URL _ _) as [url0 | e]; [|eauto].
    destruct (append_entries _ _) as [t [url | e]]; eauto.
  - rewrite readReservations_eq.
    destruct (ToString id) as [text | e]; [|eauto].
    destruct (new_URL _ _) as [url | e]; eauto.
  - rewrite searchReservationsByPhone_eq.
    destruct (ToString phoneNumber) as [text | e]; [|eauto].
    destruct (new_URL _ _) as [url | e]; eauto.
Qed.

(** An update either rejects before it asks anything, or is one call of
    [fetchJson] with two arguments. *)
Lemma mutation_is_fetchJson h call signal :
  is_mutation call = true ->
  (exists e, perform h call signal = ([], Rejected e))
  \/ exists url options,
       perform h call signal = fetchJson h url options VUndefined.
Proof.
  destruct call; cbn; try discriminate; intros _.
  - rewrite createTable_eq. eauto.
  - rewrite seatTable_eq. destruct (ToString tableId); eauto.
  - rewrite clearTable_eq. destruct (ToString tableId); eauto.
  - rewrite cancelReservation_eq. destruct (ToString reservationId); eauto.
  - rewrite editReservation_eq. destruct (ToString reservationId); eauto.
Qed.

(** Every operation either fails before it asks for anything, or is one
    call of [fetchJson] whose rejection it passes on unchanged. *)
Lemma perform_shape h call signal :
  (exists e, perform h call signal = ([], Rejected e))
  \/ exists url options onCancel (k : Value -> Settled),
       perform h call signal =
         (fst (fetchJson h url options onCancel),
          match snd (fetchJson h url options onCancel) with
          | Resolved v => k v
          | Rejected e => Rejected e
          end).
Proof.
  destruct (is_reservation_query call) eqn:Hq.
  - destruct (reservation_query_shape h call signal Hq) as [Hrej | [url Hp]];
      [now left|].
    right. rewrite Hp, then_then. eauto.
  - destruct (is_mutation call) eqn:Hm.
    + destruct (mutation_is_fetchJson h call signal Hm)
        as [Hrej | (url & options & Hp)]; [now left|].
      right. rewrite Hp. do 3 eexists. exists Resolved. apply promise_eta.
    + destruct call; try discriminate; cbn [perform].
      * rewrite listTables_eq. destruct (new_URL _ _) as [url | e];
          [|left; eauto].
        right. do 3 eexists. exists Resolved. apply promise_eta.
      * right. rewrite createReservation_eq. cbv zeta.
        do 3 eexists. exists (fun _ => Resolved (VStr "seated")). reflexivity.
Qed.
(** ** Requests and rejections of the operations *)

Lemma requests_none (events : list Event) :
  (forall u o, ~ In (EFetch u o) events) -> requests events = [].
Proof.
  induction events as [| ev rest IH]; intros Hno; [reflexivity|].
  destruct ev as [u o | | v]; cbn.
  - destruct (Hno u o). now left.
  - apply IH. intros u o H. apply (Hno u o). now right.
  - apply IH. intros u o H. apply (Hno u o). now right.
Qed.

Lemma fetchJson_requests h url options onCancel :
  requests (fst (fetchJson h url options onCancel)) = [(url, options)].
Proof.
  destruct (fetchJson_one_fetch h url options onCancel) as (rest & -> & Hno).
  cbn. now rewrite (requests_none rest Hno).
Qed.

(** When the [try] block throws, the [catch] block decides. *)
Lemma fetchJson_try_throws h url options onCancel e :
  snd (fetchJson_try h url options) = Throw e ->
  fetchJson h url options onCancel =
    async (let (t, r) := fetchJson_catch onCancel e in
           ((fst (fetchJson_try h url options) ++ t)%list, r)).
Proof.
  unfold fetchJson, try_catch.
  destruct (fetchJson_try h url options) as [t [s | e']]; cbn;
    intros H; [discriminate|].
  injection H as ->. reflexivity.
Qed.

(** The three places where the [try] block can throw. *)
Lemma fetchJson_try_throws_iff h url options e :
  snd (fetchJson_try h url options) = Throw e <->
  fetch h url options = Throw e
  \/ exists r, fetch h url options = Return r /\ status r <> 204%Z
       /\ (json r = Throw e
           \/ exists payload, json r = Return payload
                /\ get payload "error" = Throw e).
Proof.
  unfold fetchJson_try, await_fetch, await_json, bind, lift, ret.
  destruct (fetch h url options) as [r | e0]; cbn.
  - destruct (Z.eqb_spec (status r) 204) as [Hs | Hs]; cbn.
    + split; [discriminate|].
      intros [H | (r' & H & Hs' & _)]; [discriminate|]. congruence.
    + destruct (json r) as [payload | e1] eqn:Hj; cbn.
      * destruct (get payload "error") as [error | e2] eqn:He; cbn.
        -- destruct (truthy error); cbn.
           ++ split; [discriminate|].
              intros [H | (r' & H & _ & [Hj' | (p & Hj' & He')])];
                try discriminate; injection H as <-; congruence.
           ++ destruct payload; cbn in *; try discriminate;
                (split; [discriminate|]);
                intros [H | (r' & H & _ & [Hj' | (p & Hj' & He')])];
                try discriminate; injection H as <-; try congruence;
                rewrite Hj in Hj'; injection Hj' as <-; cbn in He';
                discriminate.
        -- split.
           ++ intros H. right. exists r. repeat split; auto.
              right. exists payload. split; congruence.
           ++ intros [H | (r' & H & _ & [Hj' | (p & Hj' & He')])];
                try discriminate; injection H as <-; try congruence.
      * split.
        -- intros H. right. exists r. repeat split; auto. left. congruence.
        -- intros [H | (r' & H & _ & [Hj' | (p & Hj' & He')])];
             try discriminate; injection H as <-; congruence.
  - split.
    + intros H. left. congruence.
    + intros [H | (r' & H & _)]; congruence.
Qed.

Lemma perform_rejects h call signal u o reason :
  In (EFetch u o) (fst (perform h call signal)) ->
  (forall onCancel, snd (fetchJson h u o onCancel) = Rejected reason) ->
  snd (perform h call signal) = Rejected reason.
Proof.
  intros Hin Hrej.
  destruct (perform_shape h call signal)
    as [[e He] | (url & options & onCancel & k & Hp)].
  - rewrite He in Hin. destruct Hin.
  - rewrite Hp in *. cbn in *.
    destruct (fetchJson_request h url options onCancel u o Hin) as [-> ->].
    now rewrite Hrej.
Qed.


(** ** Aborted requests *)

Lemma fetchJson_aborted h url options onCancel e :
  request_throws h (fetchJson h url options onCancel) e ->
  get e "name" = Return (VStr "AbortError") ->
  snd (fetchJson h url options onCancel) = Resolved onCancel.
Proof.
  intros (u & o & Hin & Ht) Hn.
  destruct (fetchJson_request h url options onCancel u o Hin) as [-> ->].
  rewrite (fetchJson_try_throws h url options onCancel e Ht).
  now rewrite (catch_abort onCancel e Hn).
Qed.


(** ** Enumeration order *)

Lemma insert_by_index_perm {A : Type} i (p : string * A) sorted :
  Permutation (map snd (insert_by_index i p sorted)) (p :: map snd sorted).
Proof.
  induction sorted as [| [j q] rest IH]; cbn; [reflexivity|].
  destruct (i <? j)%N; cbn; [reflexivity|].
  rewrite IH. apply perm_swap.
Qed.

(** [Object.entries] lists every own property once. *)
Lemma Object_entries_perm {A : Type} (props : list (string * A)) :
  Permutation (Object_entries props) props.
Proof.
  unfold Object_entries, named_properties.
  induction props as [| [k v] rest IH]; cbn; [reflexivity|].
  destruct (array_index k) as [i |]; cbn.
  - rewrite insert_by_index_perm. cbn. now apply perm_skip.
  - rewrite <- Permutation_middle. now apply perm_skip.
Qed.









(** ** Texts and their queries *)

Lemma json_has_body r payload :
  json r = Return payload -> status r <> 204%Z.
Proof.
  unfold json, null_body_status. intros H Hs. rewrite Hs in H. discriminate.
Qed.









(** * The claims of the specification *)

(** C3.  A response with status 204 makes [fetchJson] resolve with [null]
    after the [fetch] alone: [response.json()] is not called and nothing
    is logged. *)
Theorem no_content_resolves_null h url options onCancel r :
  fetch h url options = Return r -> status r = 204%Z ->
  fetchJson h url options onCancel = ([EFetch url options], Resolved VNull)
  /\ ~ In EJson (fst (fetchJson h url options onCancel)).
Proof.
  intros Hf Hs. rewrite (fetchJson_no_content h url options onCancel r Hf Hs).
  split; [reflexivity|]. intros [H | []]. discriminate.
Qed.

Lemma no_content_resolves_null_witness :
  fetchJson
    (Fixtures.answering (Return {| status := 204; content := Throw Fixtures.SyntaxError |}))
    (ResourceText "http://localhost:5001/tables/7/seat")
    {| method := Some "DELETE"; init_headers := headers; body := None;
       signal := None |} VUndefined
  = ([EFetch (ResourceText "http://localhost:5001/tables/7/seat")
        {| method := Some "DELETE"; init_headers := headers; body := None;
           signal := None |}], Resolved VNull).
Proof.
  apply (no_content_resolves_null
           (Fixtures.answering
              (Return {| status := 204; content := Throw Fixtures.SyntaxError |}))
           _ _ VUndefined
           {| status := 204; content := Throw Fixtures.SyntaxError |});
    reflexivity.
Defined.

(** C4.  For a response whose status is not 204 and whose parsed envelope
    has no truthy [error], [fetchJson] resolves with the envelope's [data];
    when the envelope is an object without a [data] property that is
    [undefined]. *)
Theorem envelope_data_resolves h url options onCancel r props :
  fetch h url options = Return r -> status r <> 204%Z ->
  json r = Return (VObj props) ->
  truthy (match own_property props "error" with
          | Some error => error
          | None => VUndefined
          end) = false ->
  fetchJson h url options onCancel =
    ([EFetch url options; EJson],
     Resolved (match own_property props "data" with
               | Some data => data
               | None => VUndefined
               end)).
Proof.
  intros Hf Hs Hj He.
  rewrite (fetchJson_envelope h url options onCancel r (VObj props) _
             Hf Hs Hj eq_refl).
  now rewrite He.
Qed.

Lemma envelope_data_resolves_witness :
  snd (fetchJson
         (Fixtures.answering
            (Return {| status := 200;
                       content := Return (VObj [("data", VArr [])]) |}))
         (ResourceText "http://localhost:5001/tables")
         {| method := Some "GET"; init_headers := headers; body := None;
            signal := None |} (VArr []))
  = Resolved (VArr [])
  /\ snd (fetchJson
            (Fixtures.answering
               (Return {| status := 200; content := Return (VObj []) |}))
            (ResourceText "http://localhost:5001/tables")
            {| method := Some "GET"; init_headers := headers; body := None;
               signal := None |} (VArr []))
     = Resolved VUndefined.
Proof.
  split.
  - rewrite (envelope_data_resolves
               (Fixtures.answering
                  (Return {| status := 200;
                             content := Return (VObj [("data", VArr [])]) |}))
               _ _ (VArr [])
               {| status := 200; content := Return (VObj [("data", VArr [])]) |}
               [("data", VArr [])]);
      [reflexivity | reflexivity | discriminate | reflexivity | reflexivity].
  - rewrite (envelope_data_resolves
               (Fixtures.answering
                  (Return {| status := 200; content := Return (VObj []) |}))
               _ _ (VArr [])
               {| status := 200; content := Return (VObj []) |} []);
      [reflexivity | reflexivity | discriminate | reflexivity | reflexivity].
Defined.

(** C2.  When the request is aborted, so that [fetch] (or, once the
    response has arrived, the reading of its body) throws an [AbortError],
    [fetchJson] resolves with the fallback it was given, whatever that is,
    [undefined] for a call with two arguments.  Nothing is logged and the
    promise is not rejected. *)
Theorem abort_resolves_with_fallback h url options onCancel e :
  get e "name" = Return (VStr "AbortError") ->
  (fetch h url options = Throw e ->
   fetchJson h url options onCancel
   = ([EFetch url options], Resolved onCancel))
  /\ (forall r,
        fetch h url options = Return r -> status r <> 204%Z ->
        json r = Throw e ->
        fetchJson h url options onCancel
        = ([EFetch url options; EJson], Resolved onCancel)).
Proof.
  intros Hn. split.
  - intros Hf. rewrite (fetchJson_fetch_throws h url options onCancel e Hf).
    now rewrite (catch_abort onCancel e Hn).
  - intros r Hf Hs Hj.
    rewrite (fetchJson_json_throws h url options onCancel r e Hf Hs Hj).
    now rewrite (catch_abort onCancel e Hn).
Qed.

Lemma abort_resolves_with_fallback_witness :
  fetchJson (Fixtures.answering (Throw Fixtures.AbortError))
    (ResourceText "http://localhost:5001/tables")
    {| method := Some "POST"; init_headers := headers;
       body := Some "{}"; signal := Some (Signal 1) |} VUndefined
  = ([EFetch (ResourceText "http://localhost:5001/tables")
        {| method := Some "POST"; init_headers := headers;
           body := Some "{}"; signal := Some (Signal 1) |}],
     Resolved VUndefined).
Proof.
  apply (proj1 (abort_resolves_with_fallback
                  (Fixtures.answering (Throw Fixtures.AbortError))
                  _ _ VUndefined Fixtures.AbortError eq_refl)).
  reflexivity.
Defined.

(** C8.  A value thrown in the [try] block that is an object or a
    primitive (so that its [name] can be read) and whose [name] is not
    ["AbortError"] has its [stack] logged once, after which [fetchJson]
    rejects with that same value.  The [fetch] is not repeated, and every
    exported operation passes the rejection on unchanged. *)
Theorem other_exceptions_logged_and_rethrown h url options onCancel e :
  snd (fetchJson_try h url options) = Throw e ->
  e <> VUndefined -> e <> VNull ->
  get e "name" <> Return (VStr "AbortError") ->
  exists stack,
    get e "stack" = Return stack
    /\ fetchJson h url options onCancel
       = ((fst (fetchJson_try h url options) ++ [EConsoleError stack])%list,
          Rejected e)
    /\ requests (fst (fetchJson h url options onCancel)) = [(url, options)]
    /\ forall call signal,
         In (EFetch url options) (fst (perform h call signal)) ->
         snd (perform h call signal) = Rejected e.
Proof.
  intros Ht Hu Hn Hname.
  destruct (catch_other VUndefined e Hu Hn Hname) as (stack & Hs & _).
  assert (forall c, fetchJson h url options c
            = ((fst (fetchJson_try h url options)
                  ++ [EConsoleError stack])%list, Rejected e)) as Hfj.
  { intros c. rewrite (fetchJson_try_throws h url options c e Ht).
    destruct (catch_other c e Hu Hn Hname) as (stack' & Hs' & ->).
    rewrite Hs in Hs'. injection Hs' as <-. reflexivity. }
  exists stack. repeat split.
  - exact Hs.
  - apply Hfj.
  - apply fetchJson_requests.
  - intros call signal Hin.
    apply (perform_rejects h call signal url options e Hin).
    intros c. now rewrite Hfj.
Qed.

Lemma other_exceptions_logged_and_rethrown_witness :
  exists stack,
    get Fixtures.NetworkError "stack" = Return stack
    /\ fetchJson (Fixtures.answering (Throw Fixtures.NetworkError))
         (ResourceURL (URL_of_text "http://localhost:5001/tables"))
         {| method := Some "GET"; init_headers := headers; body := None;
            signal := None |} (VArr [])
       = ((fst (fetchJson_try
                  (Fixtures.answering (Throw Fixtures.NetworkError))
                  (ResourceURL (URL_of_text "http://localhost:5001/tables"))
                  {| method := Some "GET"; init_headers := headers;
                     body := None; signal := None |})
             ++ [EConsoleError stack])%list,
          Rejected Fixtures.NetworkError)
    /\ requests
         (fst (fetchJson (Fixtures.answering (Throw Fixtures.NetworkError))
                 (ResourceURL (URL_of_text "http://localhost:5001/tables"))
                 {| method := Some "GET"; init_headers := headers;
                    body := None; signal := None |} (VArr [])))
       = [(ResourceURL (URL_of_text "http://localhost:5001/tables"),
           {| method := Some "GET"; init_headers := headers; body := None;
              signal := None |})]
    /\ forall call signal,
         In (EFetch (ResourceURL (URL_of_text "http://localhost:5001/tables"))
               {| method := Some "GET"; init_headers := headers;
                  body := None; signal := None |})
            (fst (perform (Fixtures.answering (Throw Fixtures.NetworkError))
                    call signal)) ->
         snd (perform (Fixtures.answering (Throw Fixtures.NetworkError))
                call signal) = Rejected Fixtures.NetworkError.
Proof.
  apply (other_exceptions_logged_and_rethrown
           (Fixtures.answering (Throw Fixtures.NetworkError))
           (ResourceURL (URL_of_text "http://localhost:5001/tables"))
           {| method := Some "GET"; init_headers := headers; body := None;
              signal := None |} (VArr []) Fixtures.NetworkError);
    [reflexivity | discriminate | discriminate | discriminate].
Defined.

(** C1.  For a response whose envelope carries a non-empty [error]
    string, [fetchJson] rejects with [{message: error}] whatever the
    status and whatever the fallback, and so does every exported operation
    whose request got that response; the promise is not resolved.  (A
    response that has an envelope has a body, so its status is none of
    those without one.) *)
Theorem remote_error_rejects h url options r payload error :
  fetch h url options = Return r ->
  json r = Return payload ->
  get payload "error" = Return (VStr error) -> error <> "" ->
  (forall onCancel,
     fetchJson h url options onCancel
     = ([EFetch url options; EJson],
        Rejected (VObj [("message", VStr error)])))
  /\ forall call signal,
       In (EFetch url options) (fst (perform h call signal)) ->
       snd (perform h call signal)
       = Rejected (VObj [("message", VStr error)]).
Proof.
  intros Hf Hj He Hne.
  pose proof (json_has_body r payload Hj) as Hs.
  assert (forall onCancel,
            fetchJson h url options onCancel
            = ([EFetch url options; EJson],
               Rejected (VObj [("message", VStr error)]))) as Hfj.
  { intros c.
    rewrite (fetchJson_envelope h url options c r payload _ Hf Hs Hj He).
    cbn. destruct (String.eqb_spec error ""); [contradiction | reflexivity]. }
  split; [exact Hfj|].
  intros call signal Hin.
  apply (perform_rejects h call signal url options _ Hin).
  intros c. now rewrite Hfj.
Qed.

Lemma remote_error_rejects_witness :
  (forall onCancel,
     fetchJson
       (Fixtures.answering
          (Return {| status := 200;
                     content := Return (VObj [("error", VStr "boom")]) |}))
       (ResourceText "http://localhost:5001/reservations")
       {| method := Some "POST"; init_headers := headers;
          body := JSON_stringify (VObj [("data", Fixtures.a_reservation)]);
          signal := None |} onCancel
     = ([EFetch (ResourceText "http://localhost:5001/reservations")
           {| method := Some "POST"; init_headers := headers;
              body := JSON_stringify (VObj [("data", Fixtures.a_reservation)]);
              signal := None |}; EJson],
        Rejected (VObj [("message", VStr "boom")])))
  /\ snd (createReservation
            (Fixtures.answering
               (Return {| status := 200;
                          content := Return (VObj [("error", VStr "boom")]) |}))
            Fixtures.a_reservation None)
     = Rejected (VObj [("message", VStr "boom")]).
Proof.
  destruct (remote_error_rejects
              (Fixtures.answering
                 (Return {| status := 200;
                            content := Return (VObj [("error", VStr "boom")]) |}))
              (ResourceText "http://localhost:5001/reservations")
              {| method := Some "POST"; init_headers := headers;
                 body := JSON_stringify
                           (VObj [("data", Fixtures.a_reservation)]);
                 signal := None |}
              {| status := 200;
                 content := Return (VObj [("error", VStr "boom")]) |}
              (VObj [("error", VStr "boom")]) "boom"
              eq_refl eq_refl eq_refl ltac:(discriminate))
    as [Hfj Hops].
  split; [exact Hfj|].
  apply (Hops (CallCreateReservation Fixtures.a_reservation) None).
  left. reflexivity.
Defined.

(** C9.  When the request of [createReservation] is aborted, the call
    still resolves with ["seated"]: [fetchJson] resolves with the fallback
    of a two-argument call, [undefined], and that value is dropped. *)
Theorem aborted_createReservation_resolves_seated h newReservation signal e :
  request_throws h (createReservation h newReservation signal) e ->
  get e "name" = Return (VStr "AbortError") ->
  snd (createReservation h newReservation signal) = Resolved (VStr "seated")
  /\ snd (fetchJson h (ResourceText (API_BASE_URL h ++ "/reservations"))
            {| method := Some "POST"; init_headers := headers;
               body := JSON_stringify (VObj [("data", newReservation)]);
               signal := signal |} VUndefined)
     = Resolved VUndefined.
Proof.
  intros Hreq Hn. rewrite createReservation_eq in *. cbv zeta in *.
  cbn [fst snd] in *.
  rewrite (fetchJson_aborted h _ _ VUndefined e Hreq Hn). split; reflexivity.
Qed.

Lemma aborted_createReservation_resolves_seated_witness :
  snd (createReservation (Fixtures.answering (Throw Fixtures.AbortError))
         Fixtures.a_reservation (Some (Signal 1)))
  = Resolved (VStr "seated").
Proof.
  apply (aborted_createReservation_resolves_seated
           (Fixtures.answering (Throw Fixtures.AbortError))
           Fixtures.a_reservation (Some (Signal 1)) Fixtures.AbortError).
  - exists (ResourceText "http://localhost:5001/reservations"),
      {| method := Some "POST"; init_headers := headers;
         body := JSON_stringify (VObj [("data", Fixtures.a_reservation)]);
         signal := Some (Signal 1) |}.
    split; [left; reflexivity | reflexivity].
  - reflexivity.
Defined.






(** C6.  [createReservation] makes one request, a POST to [/reservations]
    whose body is [JSON.stringify({data: newReservation})].  Its promise
    resolves with ["seated"] whenever [fetchJson] resolves, whatever value
    that is, and passes a rejection on; in particular it resolves with
    ["seated"] for every response that is not an error envelope, whatever
    the body holds. *)
Theorem createReservation_resolves_seated h newReservation signal :
  requests (fst (createReservation h newReservation signal))
  = [(ResourceText (API_BASE_URL h ++ "/reservations"),
      {| method := Some "POST"; init_headers := headers;
         body := JSON_stringify (VObj [("data", newReservation)]);
         signal := signal |})]
  /\ JSON_stringify (VObj [("data", newReservation)])
     = Some (match JSON_stringify newReservation with
             | Some text => "{" ++ QuoteJSONString "data" ++ ":" ++ text ++ "}"
             | None => "{}"
             end)
  /\ snd (createReservation h newReservation signal)
     = match snd (fetchJson h
                    (ResourceText (API_BASE_URL h ++ "/reservations"))
                    {| method := Some "POST"; init_headers := headers;
                       body := JSON_stringify
                                 (VObj [("data", newReservation)]);
                       signal := signal |} VUndefined) with
       | Resolved _ => Resolved (VStr "seated")
       | Rejected e => Rejected e
       end
  /\ forall r,
       fetch h (ResourceText (API_BASE_URL h ++ "/reservations"))
         {| method := Some "POST"; init_headers := headers;
            body := JSON_stringify (VObj [("data", newReservation)]);
            signal := signal |} = Return r ->
       (status r = 204%Z
        \/ exists props,
             json r = Return (VObj props)
             /\ truthy (match own_property props "error" with
                        | Some error => error
                        | None => VUndefined
                        end) = false) ->
       snd (createReservation h newReservation signal)
       = Resolved (VStr "seated").
Proof.
  rewrite createReservation_eq. cbv zeta. cbn [fst snd].
  repeat split.
  - apply fetchJson_requests.
  - cbn. destruct (JSON_stringify newReservation); reflexivity.
  - intros r Hf Hbody.
    destruct (Z.eq_dec (status r) 204) as [Hs | Hs].
    + now rewrite (fetchJson_no_content h _ _ VUndefined r Hf Hs).
    + destruct Hbody as [Hs' | (props & Hj & He)]; [contradiction|].
      rewrite (fetchJson_envelope h _ _ VUndefined r (VObj props) _
                 Hf Hs Hj eq_refl).
      cbn [snd]. now rewrite He.
Qed.

Lemma createReservation_resolves_seated_witness :
  snd (createReservation
         (Fixtures.answering
            (Return {| status := 201;
                       content := Return
                         (VObj [("data", Fixtures.a_reservation)]) |}))
         Fixtures.a_reservation None)
  = Resolved (VStr "seated").
Proof.
  apply (proj2 (proj2 (proj2 (createReservation_resolves_seated
           (Fixtures.answering
              (Return {| status := 201;
                         content := Return
                           (VObj [("data", Fixtures.a_reservation)]) |}))
           Fixtures.a_reservation None)))
         {| status := 201;
            content := Return (VObj [("data", Fixtures.a_reservation)]) |}).
  - reflexivity.
  - right. exists [("data", Fixtures.a_reservation)]. split; reflexivity.
Defined.

(** C5.  The two [then] steps of the reservation operations are one and
    the same function: [formatReservationTime] is imported from
    [./format-reservation-date], so the date formatter runs twice and the
    module at [./format-reservation-time] is never consulted.  With the
    example formatters, a fetched reservation comes back with its date
    shortened and its time untouched, where date formatting followed by
    time formatting would have shortened both. *)
Theorem time_formatting_is_date_formatting :
  (forall h, formatReservationTime h = formatReservationDate h)
  /\ (forall h, formatReservationDate h
                = import_default h "./format-reservation-date")
  /\ snd (listReservations
            (Fixtures.answering
               (Return {| status := 200;
                          content := Return
                            (VObj [("data",
                                    VArr [Fixtures.a_reservation])]) |}))
            [("date", VStr "2024-01-01")] None)
     = Resolved
         (VArr [VObj [("reservation_id", VNum 1);
                      ("reservation_date", VStr "2024-01-01");
                      ("reservation_time", VStr "18:30:00")]])
  /\ through Fixtures.date_module Fixtures.time_module
       (VArr [Fixtures.a_reservation])
     = Resolved
         (VArr [VObj [("reservation_id", VNum 1);
                      ("reservation_date", VStr "2024-01-01");
                      ("reservation_time", VStr "18:30")]]).
Proof. repeat split. Qed.

(** * Further properties of the module *)

(** ** Preliminaries *)

Lemma forallb_Object_entries {A : Type} (f : string * A -> bool) props :
  forallb f (Object_entries props) = forallb f props.
Proof.
  pose proof (Object_entries_perm props) as Hp.
  destruct (forallb f props) eqn:Hall.
  - rewrite forallb_forall in *. intros x Hx. apply Hall.
    apply (Permutation_in _ Hp Hx).
  - destruct (forallb f (Object_entries props)) eqn:Hall'; [|reflexivity].
    rewrite <- Hall. symmetry. rewrite forallb_forall in *.
    intros x Hx. apply Hall'.
    apply (Permutation_in _ (Permutation_sym Hp) Hx).
Qed.

Lemma stringify_data (v : Value) :
  JSON_stringify (VObj [("data", v)])
  = Some (match JSON_stringify v with
          | Some text => "{" ++ QuoteJSONString "data" ++ ":" ++ text ++ "}"
          | None => "{}"
          end).
Proof. cbn. destruct (JSON_stringify v); reflexivity. Qed.

(** ** Requests of the table and reservation updates *)

(** X1.  When the table id can be coerced to text, [seatTable] makes
    one request: a PUT to [/tables/<tableId>/seat] whose body nests the
    reservation id under [data.reservation_id]; an [undefined] reservation
    id still sends the request, with an empty [data] object.  When the
    coercion of the table id throws, the operation rejects with what was
    thrown and asks nothing. *)
Theorem seatTable_request h tableId reservationId signal :
  (forall text,
     ToString tableId = Return text ->
     requests (fst (seatTable h tableId reservationId signal))
     = [(ResourceText (API_BASE_URL h ++ "/tables/" ++ text ++ "/seat"),
         {| method := Some "PUT"; init_headers := headers;
            body := Some ("{" ++ QuoteJSONString "data" ++ ":"
                            ++ match JSON_stringify reservationId with
                               | Some json_text =>
                                   "{" ++ QuoteJSONString "reservation_id"
                                     ++ ":" ++ json_text ++ "}"
                               | None => "{}"
                               end ++ "}");
            signal := signal |})])
  /\ (forall e,
        ToString tableId = Throw e ->
        seatTable h tableId reservationId signal = ([], Rejected e)).
Proof.
  rewrite seatTable_eq. split.
  - intros text ->. rewrite fetchJson_requests. cbn.
    destruct (JSON_stringify reservationId); reflexivity.
  - now intros e ->.
Qed.

Lemma seatTable_request_witness :
  requests
    (fst (seatTable
            (Fixtures.answering
               (Return {| status := 204; content := Throw Fixtures.SyntaxError |}))
            (VNum 7) VUndefined None))
  = [(ResourceText "http://localhost:5001/tables/7/seat",
      {| method := Some "PUT"; init_headers := headers;
         body := Some ("{" ++ QuoteJSONString "data" ++ ":{}}");
         signal := None |})]
  /\ seatTable
       (Fixtures.answering
          (Return {| status := 204; content := Throw Fixtures.SyntaxError |}))
       (VObj [("toString", VNum 1)]) (VNum 42) None
     = ([], Rejected (TypeError "Cannot convert object to primitive value")).
Proof.
  destruct (seatTable_request
              (Fixtures.answering
                 (Return {| status := 204;
                            content := Throw Fixtures.SyntaxError |}))
              (VNum 7) VUndefined None) as [Hrequest _].
  destruct (seatTable_request
              (Fixtures.answering
                 (Return {| status := 204;
                            content := Throw Fixtures.SyntaxError |}))
              (VObj [("toString", VNum 1)]) (VNum 42) None) as [_ Hthrow].
  split.
  - apply (Hrequest "7"). reflexivity.
  - apply Hthrow. reflexivity.
Defined.

(** X2.  When the table id can be coerced to text, [clearTable] makes one
    request: a DELETE without a body.  Whatever the table id, it asks
    for the address [seatTable] asks for, or asks nothing as [seatTable]
    does. *)
Theorem clearTable_request h tableId reservationId signal :
  (forall text,
     ToString tableId = Return text ->
     requests (fst (clearTable h tableId signal))
     = [(ResourceText (API_BASE_URL h ++ "/tables/" ++ text ++ "/seat"),
         {| method := Some "DELETE"; init_headers := headers; body := None;
            signal := signal |})])
  /\ map fst (requests (fst (clearTable h tableId signal)))
     = map fst (requests (fst (seatTable h tableId reservationId signal))).
Proof.
  rewrite clearTable_eq, seatTable_eq. split.
  - intros text ->. now rewrite fetchJson_requests.
  - destruct (ToString tableId); [|reflexivity].
    now rewrite !fetchJson_requests.
Qed.

Lemma clearTable_request_witness :
  requests
    (fst (clearTable
            (Fixtures.answering
               (Return {| status := 204; content := Throw Fixtures.SyntaxError |}))
            (VNum 7) None))
  = [(ResourceText "http://localhost:5001/tables/7/seat",
      {| method := Some "DELETE"; init_headers := headers; body := None;
         signal := None |})].
Proof.
  apply (proj1 (clearTable_request
                  (Fixtures.answering
                     (Return {| status := 204;
                                content := Throw Fixtures.SyntaxError |}))
                  (VNum 7) (VNum 42) None) "7").
  reflexivity.
Defined.

(** X3.  When the reservation id can be coerced to text,
    [cancelReservation] makes one request: a PUT to
    [/reservations/<id>/status] whose body is the same for every
    reservation, the status ["cancelled"] under [data]. *)
Theorem cancelReservation_request h reservationId signal text :
  ToString reservationId = Return text ->
  requests (fst (cancelReservation h reservationId signal))
  = [(ResourceText (API_BASE_URL h ++ "/reservations/" ++ text
                      ++ "/status"),
      {| method := Some "PUT"; init_headers := headers;
         body := Some ("{" ++ QuoteJSONString "data" ++ ":{"
                         ++ QuoteJSONString "status" ++ ":"
                         ++ QuoteJSONString "cancelled" ++ "}}");
         signal := signal |})].
Proof.
  intros Htext. rewrite cancelReservation_eq, Htext, fetchJson_requests.
  reflexivity.
Qed.

Lemma cancelReservation_request_witness :
  requests
    (fst (cancelReservation
            (Fixtures.answering
               (Return {| status := 200; content := Return (VObj []) |}))
            (VNum 3) None))
  = [(ResourceText "http://localhost:5001/reservations/3/status",
      {| method := Some "PUT"; init_headers := headers;
         body := Some ("{" ++ QuoteJSONString "data" ++ ":{"
                         ++ QuoteJSONString "status" ++ ":"
                         ++ QuoteJSONString "cancelled" ++ "}}");
         signal := None |})].
Proof.
  apply (cancelReservation_request
           (Fixtures.answering
              (Return {| status := 200; content := Return (VObj []) |}))
           (VNum 3) None "3").
  reflexivity.
Defined.

(** X4.  [createTable] makes one request, a POST to [/tables], and
    [editReservation], when the reservation id can be coerced to text,
    one PUT to [/reservations/<id>]; the body of either is the argument
    wrapped under [data], and [{}] for an [undefined] argument. *)
Theorem payload_wrapped_under_data h payload reservationId signal :
  requests (fst (createTable h payload signal))
  = [(ResourceText (API_BASE_URL h ++ "/tables"),
      {| method := Some "POST"; init_headers := headers;
         body := Some (match JSON_stringify payload with
                       | Some text =>
                           "{" ++ QuoteJSONString "data" ++ ":" ++ text ++ "}"
                       | None => "{}"
                       end);
         signal := signal |})]
  /\ (forall id_text,
        ToString reservationId = Return id_text ->
        requests (fst (editReservation h reservationId payload signal))
        = [(ResourceText (API_BASE_URL h ++ "/reservations/" ++ id_text),
            {| method := Some "PUT"; init_headers := headers;
               body := Some (match JSON_stringify payload with
                             | Some text =>
                                 "{" ++ QuoteJSONString "data" ++ ":" ++ text
                                   ++ "}"
                             | None => "{}"
                             end);
               signal := signal |})]).
Proof.
  rewrite createTable_eq, editReservation_eq, fetchJson_requests. split.
  - now rewrite stringify_data.
  - intros id_text ->. now rewrite fetchJson_requests, stringify_data.
Qed.

Lemma payload_wrapped_under_data_witness :
  requests
    (fst (editReservation
            (Fixtures.answering
               (Return {| status := 200; content := Return (VObj []) |}))
            (VNum 3) VUndefined None))
  = [(ResourceText "http://localhost:5001/reservations/3",
      {| method := Some "PUT"; init_headers := headers; body := Some "{}";
         signal := None |})].
Proof.
  apply (proj2 (payload_wrapped_under_data
                  (Fixtures.answering
                     (Return {| status := 200; content := Return (VObj []) |}))
                  VUndefined (VNum 3) None) "3").
  reflexivity.
Defined.

(** ** Edge cases of [fetchJson] *)

Lemma is_string_true (v : Value) (text : string) :
  is_string v text = true -> v = VStr text.
Proof.
  destruct v; cbn; try discriminate.
  intros H. apply String.eqb_eq in H. now subst.
Qed.

(** X5.  A body that parses to [null] is not an envelope: reading
    [payload.error] throws a [TypeError], which the [catch] block logs and
    rethrows, so the call rejects although the server answered. *)
Theorem null_body_rejects h url options onCancel r :
  fetch h url options = Return r -> status r <> 204%Z ->
  json r = Return VNull ->
  fetchJson h url options onCancel
  = ([EFetch url options; EJson;
      EConsoleError
        (VStr "TypeError: Cannot read properties of null (reading 'error')")],
     Rejected (TypeError "Cannot read properties of null (reading 'error')")).
Proof.
  intros Hf Hs Hj.
  now rewrite (fetchJson_payload_throws h url options onCancel r VNull _
                 Hf Hs Hj eq_refl).
Qed.

Lemma null_body_rejects_witness :
  snd (fetchJson
         (Fixtures.answering (Return {| status := 200; content := Return VNull |}))
         (ResourceText "http://localhost:5001/tables")
         {| method := Some "GET"; init_headers := headers; body := None;
            signal := None |} (VArr []))
  = Rejected (TypeError "Cannot read properties of null (reading 'error')").
Proof.
  rewrite (null_body_rejects
             (Fixtures.answering
                (Return {| status := 200; content := Return VNull |}))
             _ _ (VArr []) {| status := 200; content := Return VNull |});
    [reflexivity | reflexivity | discriminate | reflexivity].
Defined.

(** X6.  A body that parses to a bare array, string, number or boolean
    has neither [error] nor [data]: the call resolves with [undefined] and
    the parsed value is dropped. *)
Theorem bare_body_resolves_undefined h url options onCancel r payload :
  fetch h url options = Return r -> status r <> 204%Z ->
  json r = Return payload -> is_bare payload = true ->
  fetchJson h url options onCancel
  = ([EFetch url options; EJson], Resolved VUndefined).
Proof.
  intros Hf Hs Hj Hb.
  assert (get payload "error" = Return VUndefined) as He
    by (destruct payload; cbn in *; congruence).
  rewrite (fetchJson_envelope h url options onCancel r payload _ Hf Hs Hj He).
  destruct payload; cbn in *; congruence.
Qed.

Lemma bare_body_resolves_undefined_witness :
  fetchJson
    (Fixtures.answering
       (Return {| status := 200;
                  content := Return (VArr [Fixtures.a_reservation]) |}))
    (ResourceText "http://localhost:5001/tables")
    {| method := Some "GET"; init_headers := headers; body := None;
       signal := None |} (VArr [])
  = ([EFetch (ResourceText "http://localhost:5001/tables")
        {| method := Some "GET"; init_headers := headers; body := None;
           signal := None |}; EJson], Resolved VUndefined).
Proof.
  apply (bare_body_resolves_undefined
           (Fixtures.answering
              (Return {| status := 200;
                         content := Return (VArr [Fixtures.a_reservation]) |}))
           _ _ (VArr [])
           {| status := 200; content := Return (VArr [Fixtures.a_reservation]) |}
           (VArr [Fixtures.a_reservation]));
    [reflexivity | discriminate | reflexivity | reflexivity].
Defined.

(** X7.  The [error] of an envelope is tested for truthiness only and is
    handed on as it is: a truthy [error] of any type (a number, an object,
    [true]) becomes the [message] of the rejection unconverted, and the
    rejection is not logged. *)
Theorem truthy_error_is_the_message h url options onCancel r payload error :
  fetch h url options = Return r -> status r <> 204%Z ->
  json r = Return payload -> get payload "error" = Return error ->
  truthy error = true ->
  fetchJson h url options onCancel
  = ([EFetch url options; EJson], Rejected (VObj [("message", error)]))
  /\ logged (fst (fetchJson h url options onCancel)) = [].
Proof.
  intros Hf Hs Hj He Ht.
  rewrite (fetchJson_envelope h url options onCancel r payload error
             Hf Hs Hj He).
  rewrite Ht. split; reflexivity.
Qed.

Lemma truthy_error_is_the_message_witness :
  fetchJson
    (Fixtures.answering
       (Return {| status := 500;
                  content := Return
                    (VObj [("error", VObj [("code", VNum 42)])]) |}))
    (ResourceText "http://localhost:5001/tables")
    {| method := Some "GET"; init_headers := headers; body := None;
       signal := None |} (VArr [])
  = ([EFetch (ResourceText "http://localhost:5001/tables")
        {| method := Some "GET"; init_headers := headers; body := None;
           signal := None |}; EJson],
     Rejected (VObj [("message", VObj [("code", VNum 42)])])).
Proof.
  apply (proj1 (truthy_error_is_the_message
           (Fixtures.answering
              (Return {| status := 500;
                         content := Return
                           (VObj [("error", VObj [("code", VNum 42)])]) |}))
           _ _ (VArr [])
           {| status := 500;
              content := Return (VObj [("error", VObj [("code", VNum 42)])]) |}
           (VObj [("error", VObj [("code", VNum 42)])])
           (VObj [("code", VNum 42)])
           eq_refl ltac:(discriminate) eq_refl eq_refl eq_refl)).
Defined.

(** X8.  When the value thrown in the [try] block is [null] or
    [undefined], the [catch] block itself fails on [error.name]: the call
    rejects with a [TypeError] in place of the thrown value, logs nothing
    and does not use the fallback. *)
Theorem thrown_null_becomes_TypeError h url options onCancel e :
  snd (fetchJson_try h url options) = Throw e ->
  e = VNull \/ e = VUndefined ->
  exists message,
    fetchJson h url options onCancel
    = (fst (fetchJson_try h url options), Rejected (TypeError message)).
Proof.
  intros Ht He.
  rewrite (fetchJson_try_throws h url options onCancel e Ht).
  destruct He as [-> | ->]; cbn; rewrite app_nil_r; eauto.
Qed.

Lemma thrown_null_becomes_TypeError_witness :
  exists message,
    fetchJson (Fixtures.answering (Throw VNull))
      (ResourceText "http://localhost:5001/tables")
      {| method := Some "GET"; init_headers := headers; body := None;
         signal := None |} (VArr [])
    = (fst (fetchJson_try (Fixtures.answering (Throw VNull))
              (ResourceText "http://localhost:5001/tables")
              {| method := Some "GET"; init_headers := headers; body := None;
                 signal := None |}),
       Rejected (TypeError message)).
Proof.
  apply (thrown_null_becomes_TypeError (Fixtures.answering (Throw VNull))
           _ _ (VArr []) VNull); [reflexivity | left; reflexivity].
Defined.

(** X9.  The fallback matters only on an abort: when nothing thrown in
    the [try] block is named ["AbortError"], two calls that differ in the
    fallback alone perform the same events and settle alike. *)
Theorem fallback_unused_without_abort h url options onCancel onCancel' :
  (forall e, snd (fetchJson_try h url options) = Throw e ->
             get e "name" <> Return (VStr "AbortError")) ->
  fetchJson h url options onCancel = fetchJson h url options onCancel'.
Proof.
  intros Hno. unfold fetchJson, try_catch.
  destruct (fetchJson_try h url options) as [t [s | e]]; [reflexivity|].
  specialize (Hno e eq_refl).
  unfold fetchJson_catch, lift, bind.
  destruct (get e "name") as [name | e']; [|reflexivity].
  destruct (is_string name "AbortError") eqn:Hn; [|reflexivity].
  apply is_string_true in Hn. subst. contradiction.
Qed.

Lemma fallback_unused_without_abort_witness :
  fetchJson
    (Fixtures.answering
       (Return {| status := 200; content := Return (VObj [("data", VNum 1)]) |}))
    (ResourceText "http://localhost:5001/tables")
    {| method := Some "GET"; init_headers := headers; body := None;
       signal := None |} (VArr [])
  = fetchJson
      (Fixtures.answering
         (Return {| status := 200; content := Return (VObj [("data", VNum 1)]) |}))
      (ResourceText "http://localhost:5001/tables")
      {| method := Some "GET"; init_headers := headers; body := None;
         signal := None |} VUndefined.
Proof.
  apply (fallback_unused_without_abort
           (Fixtures.answering
              (Return {| status := 200;
                         content := Return (VObj [("data", VNum 1)]) |}))
           _ _ (VArr []) VUndefined).
  intros e H. discriminate H.
Defined.

(** ** What every operation asks of the network *)

Lemma prefix_app (s t : string) : prefix s (s ++ t) = true.
Proof.
  induction s as [| a s IH]; cbn; [now destruct t|].
  destruct (ascii_dec a a); [exact IH | contradiction].
Qed.

(** What holds of the request of any operation. *)
Lemma request_facts h call s u o :
  In (u, o) (requests (fst (perform h call s))) ->
  init_headers o = headers /\ signal o = s
  /\ prefix (API_BASE_URL h) (resource_text u) = true
  /\ ((exists text, body o = Some text)
      <-> (method o = Some "POST" \/ method o = Some "PUT")).
Proof.
  assert (forall m : option string,
            (m = None \/ m = Some "GET" \/ m = Some "DELETE") ->
            (exists text : string, @None string = Some text)
            <-> (m = Some "POST" \/ m = Some "PUT")) as Hnone.
  { intros m Hm. split.
    - intros [text H]. discriminate.
    - intros [-> | ->]; destruct Hm as [H | [H | H]]; discriminate. }
  assert (forall (m : option string) (b : option string),
            (m = Some "POST" \/ m = Some "PUT") ->
            (exists text, b = Some text) ->
            (exists text, b = Some text)
            <-> (m = Some "POST" \/ m = Some "PUT")) as Hsome by tauto.
  destruct call; cbn [perform].
  - rewrite listReservations_eq.
    destruct (new_URL _ _) as [url0 | e] eqn:Hu; [|intros []].
    apply new_URL_input in Hu. subst url0.
    destruct (append_entries _ _) as [t [url | e]] eqn:Happ; [|intros []].
    apply append_entries_input in Happ. cbn in Happ.
    rewrite !then_events, fetchJson_requests.
    intros [H | []]. injection H as <- <-. cbn [resource_text].
    rewrite Happ.
    split; [reflexivity | split; [reflexivity | split]];
      [apply prefix_app | apply Hnone; tauto].
  - rewrite listTables_eq.
    destruct (new_URL _ _) as [url | e] eqn:Hu; [|intros []].
    apply new_URL_input in Hu. subst url. rewrite fetchJson_requests.
    intros [H | []]. injection H as <- <-.
    split; [reflexivity | split; [reflexivity | split]];
      [apply prefix_app | apply Hnone; tauto].
  - rewrite createReservation_eq. cbv zeta. cbn [fst].
    rewrite fetchJson_requests.
    intros [H | []]. injection H as <- <-.
    split; [reflexivity | split; [reflexivity | split]];
      [apply prefix_app | apply Hsome; [tauto | eexists; reflexivity]].
  - rewrite createTable_eq, fetchJson_requests.
    intros [H | []]. injection H as <- <-.
    split; [reflexivity | split; [reflexivity | split]];
      [apply prefix_app | apply Hsome; [tauto | eexists; reflexivity]].
  - rewrite readReservations_eq.
    destruct (ToString id) as [text | e]; [|intros []].
    destruct (new_URL _ _) as [url | e] eqn:Hu; [|intros []].
    apply new_URL_input in Hu. subst url.
    rewrite !then_events, fetchJson_requests.
    intros [H | []]. injection H as <- <-.
    split; [reflexivity | split; [reflexivity | split]];
      [apply prefix_app | apply Hnone; tauto].
  - rewrite seatTable_eq.
    destruct (ToString tableId) as [text | e]; [|intros []].
    rewrite fetchJson_requests.
    intros [H | []]. injection H as <- <-.
    split; [reflexivity | split; [reflexivity | split]];
      [apply prefix_app | apply Hsome; [tauto | eexists; reflexivity]].
  - rewrite clearTable_eq.
    destruct (ToString tableId) as [text | e]; [|intros []].
    rewrite fetchJson_requests.
    intros [H | []]. injection H as <- <-.
    split; [reflexivity | split; [reflexivity | split]];
      [apply prefix_app | apply Hnone; tauto].
  - rewrite searchReservationsByPhone_eq.
    destruct (ToString phoneNumber) as [text | e]; [|intros []].
    destruct (new_URL _ _) as [url | e] eqn:Hu; [|intros []].
    apply new_URL_input in Hu. subst url.
    rewrite !then_events, fetchJson_requests.
    intros [H | []]. injection H as <- <-.
    split; [reflexivity | split; [reflexivity | split]];
      [apply prefix_app | apply Hnone; tauto].
  - rewrite cancelReservation_eq.
    destruct (ToString reservationId) as [text | e]; [|intros []].
    rewrite fetchJson_requests.
    intros [H | []]. injection H as <- <-.
    split; [reflexivity | split; [reflexivity | split]];
      [apply prefix_app | apply Hsome; [tauto | eexists; reflexivity]].
  - rewrite editReservation_eq.
    destruct (ToString reservationId) as [text | e]; [|intros []].
    rewrite fetchJson_requests.
    intros [H | []]. injection H as <- <-.
    split; [reflexivity | split; [reflexivity | split]];
      [apply prefix_app | apply Hsome; [tauto | eexists; reflexivity]].
Qed.

(** X10.  Whatever its arguments and whatever the network answers, an
    operation calls [fetch] at most once: either it rejects before
    anything happens (an argument cannot be coerced to text, or the
    address does not parse), or it makes exactly one request; no request
    is repeated and no second one is made. *)
Theorem one_request_per_operation h call s :
  (exists e, perform h call s = ([], Rejected e))
  \/ exists u o, requests (fst (perform h call s)) = [(u, o)].
Proof.
  destruct (perform_shape h call s)
    as [Hrej | (url & options & onCancel & k & ->)]; [now left|].
  right. cbn [fst]. rewrite fetchJson_requests. eauto.
Qed.

(** X11.  [listReservations] fails before it asks anything when the
    [toString] call on some parameter value throws, as it does for [null]
    and [undefined]: the promise rejects with a [TypeError], no request is
    made and nothing is logged. *)
Theorem listReservations_rejects_missing_value h params signal :
  forallb (fun p => has_toString (snd p)) params = false ->
  exists e,
    listReservations h params signal = ([], Rejected e)
    /\ get e "name" = Return (VStr "TypeError").
Proof.
  intros Hbad. rewrite listReservations_eq.
  unfold new_URL.
  destruct (URL_parses h (API_BASE_URL h ++ "/reservations"));
    [|eexists; split; reflexivity].
  rewrite <- (forallb_Object_entries _ params) in Hbad.
  destruct (append_entries_rejected (Object_entries params)
              (URL_of_text (API_BASE_URL h ++ "/reservations")) Hbad)
    as (e & -> & Hn).
  exists e. split; [reflexivity | exact Hn].
Qed.

Lemma listReservations_rejects_missing_value_witness :
  exists e,
    listReservations
      (Fixtures.answering
         (Return {| status := 200; content := Return (VObj [("data", VArr [])]) |}))
      [("date", VStr "2024-01-01"); ("mobile_number", VUndefined)] None
    = ([], Rejected e)
    /\ get e "name" = Return (VStr "TypeError").
Proof.
  apply (listReservations_rejects_missing_value
           (Fixtures.answering
              (Return {| status := 200;
                         content := Return (VObj [("data", VArr [])]) |}))
           [("date", VStr "2024-01-01"); ("mobile_number", VUndefined)] None).
  reflexivity.
Defined.

(** X12.  Every request of every operation carries exactly the header
    [Content-Type: application/json] and the signal the caller passed. *)
Theorem requests_carry_headers_and_signal h call s u o :
  In (u, o) (requests (fst (perform h call s))) ->
  init_headers o = [("Content-Type", "application/json")] /\ signal o = s.
Proof.
  intros Hin.
  destruct (request_facts h call s u o Hin) as (Hh & Hs & _). now split.
Qed.

Lemma requests_carry_headers_and_signal_witness :
  init_headers
    {| method := Some "DELETE"; init_headers := headers; body := None;
       signal := Some (Signal 7) |}
  = [("Content-Type", "application/json")]
  /\ signal
       {| method := Some "DELETE"; init_headers := headers; body := None;
          signal := Some (Signal 7) |}
     = Some (Signal 7).
Proof.
  apply (requests_carry_headers_and_signal
           (Fixtures.answering
              (Return {| status := 204; content := Throw Fixtures.SyntaxError |}))
           (CallClearTable (VNum 7)) (Some (Signal 7))
           (ResourceText "http://localhost:5001/tables/7/seat")).
  left. reflexivity.
Defined.



(** X14.  The address text of every request, as the module writes it
    for [fetch] or for the [URL] constructor, begins with the base URL.
    The base is the environment's [REACT_APP_API_BASE_URL] when that is
    set and not empty, and [http://localhost:5001] when it is unset or
    empty; it is never empty. *)
Theorem requests_go_to_the_base_url h call s u o :
  In (u, o) (requests (fst (perform h call s))) ->
  prefix (API_BASE_URL h) (resource_text u) = true
  /\ API_BASE_URL h <> ""
  /\ (forall text,
        REACT_APP_API_BASE_URL h = Some text -> text <> "" ->
        API_BASE_URL h = text)
  /\ (REACT_APP_API_BASE_URL h = None \/ REACT_APP_API_BASE_URL h = Some "" ->
      API_BASE_URL h = "http://localhost:5001").
Proof.
  intros Hin. split; [|split; [|split]].
  - now destruct (request_facts h call s u o Hin) as (_ & _ & H & _).
  - unfold API_BASE_URL. destruct (REACT_APP_API_BASE_URL h) as [text |];
      [|discriminate].
    destruct (String.eqb_spec text ""); [discriminate | assumption].
  - intros text Henv Hne. unfold API_BASE_URL. rewrite Henv.
    destruct (String.eqb_spec text ""); [contradiction | reflexivity].
  - unfold API_BASE_URL. intros [-> | ->]; reflexivity.
Qed.

Lemma requests_go_to_the_base_url_witness :
  prefix
    (API_BASE_URL
       {| REACT_APP_API_BASE_URL := Some "https://api.example.org";
          import_default := Fixtures.modules;
          URL_parses := fun text => prefix "https://api.example.org/" text;
          fetch := fun _ _ => Throw Fixtures.NetworkError |})
    (resource_text
       (ResourceURL (URL_of_text "https://api.example.org/reservations/12")))
  = true
  /\ API_BASE_URL
       {| REACT_APP_API_BASE_URL := Some "https://api.example.org";
          import_default := Fixtures.modules;
          URL_parses := fun text => prefix "https://api.example.org/" text;
          fetch := fun _ _ => Throw Fixtures.NetworkError |}
     = "https://api.example.org".
Proof.
  destruct (requests_go_to_the_base_url
              {| REACT_APP_API_BASE_URL := Some "https://api.example.org";
                 import_default := Fixtures.modules;
                 URL_parses :=
                   fun text => prefix "https://api.example.org/" text;
                 fetch := fun _ _ => Throw Fixtures.NetworkError |}
              (CallReadReservations (VNum 12)) None
              (ResourceURL
                 (URL_of_text "https://api.example.org/reservations/12"))
              {| method := None; init_headers := headers; body := None;
                 signal := None |}
              (or_introl eq_refl))
    as (Hprefix & _ & Henv & _).
  split; [exact Hprefix|].
  apply (Henv "https://api.example.org"); [reflexivity | discriminate].
Defined.

(** ** What the operations log and how they settle *)

Lemma logged_app (a b : list Event) :
  logged (a ++ b)%list = (logged a ++ logged b)%list.
Proof.
  induction a as [| ev a IH]; [reflexivity|].
  destruct ev; cbn; now rewrite IH.
Qed.

Lemma fetchJson_try_logs_nothing h url options :
  logged (fst (fetchJson_try h url options)) = [].
Proof.
  unfold fetchJson_try, await_fetch, await_json, bind, lift, ret.
  destruct (fetch h url options) as [r | e]; [|reflexivity].
  destruct (status r =? 204)%Z; [reflexivity|].
  destruct (json r) as [payload | e]; [|reflexivity].
  destruct (get payload "error") as [error | e]; [|reflexivity].
  destruct (truthy error); [reflexivity|].
  destruct (get payload "data"); reflexivity.
Qed.

Lemma fetchJson_logged h url options onCancel :
  logged (fst (fetchJson h url options onCancel)) = []
  \/ exists e stack,
       snd (fetchJson h url options onCancel) = Rejected e
       /\ get e "stack" = Return stack
       /\ logged (fst (fetchJson h url options onCancel)) = [stack].
Proof.
  pose proof (fetchJson_try_logs_nothing h url options) as Htry.
  unfold fetchJson, try_catch.
  destruct (fetchJson_try h url options) as [t [s | e]]; cbn in Htry.
  - left. exact Htry.
  - unfold fetchJson_catch, lift, bind, console_error, throw, ret.
    destruct (get e "name") as [name | e']; cbn.
    + destruct (is_string name "AbortError"); cbn.
      * left. now rewrite app_nil_r.
      * destruct (get e "stack") as [stack | e'] eqn:Hs; cbn.
        -- right. exists e, stack. rewrite logged_app, Htry. auto.
        -- left. now rewrite app_nil_r.
    + left. now rewrite app_nil_r.
Qed.

(** X15.  [console.error] is called at most once in an operation, and
    only on the way to a rejection: what is logged is the [stack] of the
    very value the promise rejects with.  An operation that resolves has
    logged nothing. *)
Theorem only_rejections_are_logged h call s :
  logged (fst (perform h call s)) = []
  \/ exists e stack,
       snd (perform h call s) = Rejected e
       /\ get e "stack" = Return stack
       /\ logged (fst (perform h call s)) = [stack].
Proof.
  destruct (perform_shape h call s)
    as [[e ->] | (url & options & onCancel & k & ->)]; [now left|].
  cbn [fst snd].
  destruct (fetchJson_logged h url options onCancel)
    as [Hnone | (e & stack & Hrej & Hstack & Hlog)]; [now left|].
  right. exists e, stack. now rewrite Hrej.
Qed.

Lemma mutation_settles h call s u o :
  is_mutation call = true ->
  In (EFetch u o) (fst (perform h call s)) ->
  perform h call s = fetchJson h u o VUndefined.
Proof.
  intros Hm Hin.
  destruct (mutation_is_fetchJson h call s Hm)
    as [[e Hp] | (url & options & Hp)]; rewrite Hp in *.
  - destruct Hin.
  - now destruct (fetchJson_request h url options VUndefined u o Hin)
      as [-> ->].
Qed.

(** X16.  [createTable], [seatTable], [clearTable], [cancelReservation]
    and [editReservation] hand on what [fetchJson] produced: [null] for a
    204 response, the [data] of the envelope otherwise ([undefined] when
    the envelope has none). *)
Theorem writes_resolve_with_response_data h call s u o r :
  is_mutation call = true ->
  In (EFetch u o) (fst (perform h call s)) ->
  fetch h u o = Return r ->
  (status r = 204%Z -> perform h call s = ([EFetch u o], Resolved VNull))
  /\ (forall props,
        status r <> 204%Z -> json r = Return (VObj props) ->
        truthy (match own_property props "error" with
                | Some error => error
                | None => VUndefined
                end) = false ->
        perform h call s
        = ([EFetch u o; EJson],
           Resolved (match own_property props "data" with
                     | Some data => data
                     | None => VUndefined
                     end))).
Proof.
  intros Hm Hin Hf. rewrite (mutation_settles h call s u o Hm Hin). split.
  - intros Hs. exact (fetchJson_no_content h u o VUndefined r Hf Hs).
  - intros props Hs Hj He.
    rewrite (fetchJson_envelope h u o VUndefined r (VObj props) _
               Hf Hs Hj eq_refl).
    now rewrite He.
Qed.

Lemma writes_resolve_with_response_data_witness :
  perform
    (Fixtures.answering
       (Return {| status := 204; content := Throw Fixtures.SyntaxError |}))
    (CallSeatTable (VNum 7) (VNum 42)) None
  = ([EFetch (ResourceText "http://localhost:5001/tables/7/seat")
        {| method := Some "PUT"; init_headers := headers;
           body := JSON_stringify
                     (VObj [("data", VObj [("reservation_id", VNum 42)])]);
           signal := None |}],
     Resolved VNull).
Proof.
  apply (proj1 (writes_resolve_with_response_data
           (Fixtures.answering
              (Return {| status := 204; content := Throw Fixtures.SyntaxError |}))
           (CallSeatTable (VNum 7) (VNum 42)) None
           (ResourceText "http://localhost:5001/tables/7/seat")
           {| method := Some "PUT"; init_headers := headers;
              body := JSON_stringify
                        (VObj [("data", VObj [("reservation_id", VNum 42)])]);
              signal := None |}
           {| status := 204; content := Throw Fixtures.SyntaxError |}
           eq_refl (or_introl eq_refl) eq_refl)).
  reflexivity.
Defined.

(** X17.  When the request of [createTable], [seatTable], [clearTable],
    [cancelReservation] or [editReservation] is aborted, the operation
    resolves with [undefined]: these pass no fallback to [fetchJson]. *)
Theorem aborted_writes_resolve_undefined h call s e :
  is_mutation call = true ->
  request_throws h (perform h call s) e ->
  get e "name" = Return (VStr "AbortError") ->
  snd (perform h call s) = Resolved VUndefined.
Proof.
  intros Hm Hreq Hn.
  destruct (mutation_is_fetchJson h call s Hm)
    as [[e' Hp] | (url & options & Hp)]; rewrite Hp in *.
  - destruct Hreq as (u & o & [] & _).
  - exact (fetchJson_aborted h url options VUndefined e Hreq Hn).
Qed.

Lemma aborted_writes_resolve_undefined_witness :
  snd (perform (Fixtures.answering (Throw Fixtures.AbortError))
         (CallEditReservation (VNum 3) Fixtures.a_reservation)
         (Some (Signal 2)))
  = Resolved VUndefined.
Proof.
  apply (aborted_writes_resolve_undefined
           (Fixtures.answering (Throw Fixtures.AbortError))
           (CallEditReservation (VNum 3) Fixtures.a_reservation)
           (Some (Signal 2)) Fixtures.AbortError).
  - reflexivity.
  - exists (ResourceText "http://localhost:5001/reservations/3"),
      {| method := Some "PUT"; init_headers := headers;
         body := JSON_stringify (VObj [("data", Fixtures.a_reservation)]);
         signal := Some (Signal 2) |}.
    split; [left; reflexivity | reflexivity].
  - reflexivity.
Defined.

Lemma through_unfold (f g : Formatter) (v : Value) :
  through f g v
  = match f v with
    | Throw e => Rejected e
    | Return v' =>
        match g v' with
        | Throw e => Rejected e
        | Return v'' => Resolved v''
        end
    end.
Proof. unfold through. cbn. destruct (f v); reflexivity. Qed.

Lemma reservation_query_settles h call s u o :
  is_reservation_query call = true ->
  In (EFetch u o) (fst (perform h call s)) ->
  perform h call s
  = (fst (fetchJson h u o (VArr [])),
     match snd (fetchJson h u o (VArr [])) with
     | Resolved v =>
         through (formatReservationDate h) (formatReservationTime h) v
     | Rejected e => Rejected e
     end).
Proof.
  intros Hq.
  destruct (reservation_query_shape h call s Hq) as [[e ->] | [url ->]];
    [intros [] |].
  rewrite then_then. cbn [fst]. intros Hin.
  now destruct (fetchJson_request h _ _ _ u o Hin) as [-> ->].
Qed.

(** X18.  [listReservations], [readReservations] and
    [searchReservationsByPhone] settle as the formatters decide: the
    fetched [data] ([null] for a 204 response) goes through
    [formatReservationDate] and then [formatReservationTime]; an exception
    thrown by either rejects the operation with that exception, and
    [console.error] is not called for it. *)
Theorem reservation_queries_settle_as_formatters_decide h call s u o r :
  is_reservation_query call = true ->
  In (EFetch u o) (fst (perform h call s)) ->
  fetch h u o = Return r ->
  (status r = 204%Z ->
   perform h call s
   = ([EFetch u o],
      match formatReservationDate h VNull with
      | Throw e => Rejected e
      | Return v' =>
          match formatReservationTime h v' with
          | Throw e => Rejected e
          | Return v'' => Resolved v''
          end
      end))
  /\ (forall props,
        status r <> 204%Z -> json r = Return (VObj props) ->
        truthy (match own_property props "error" with
                | Some error => error
                | None => VUndefined
                end) = false ->
        perform h call s
        = ([EFetch u o; EJson],
           match formatReservationDate h
                   (match own_property props "data" with
                    | Some data => data
                    | None => VUndefined
                    end) with
           | Throw e => Rejected e
           | Return v' =>
               match formatReservationTime h v' with
               | Throw e => Rejected e
               | Return v'' => Resolved v''
               end
           end)).
Proof.
  intros Hq Hin Hf. rewrite (reservation_query_settles h call s u o Hq Hin).
  split.
  - intros Hs. rewrite (fetchJson_no_content h u o (VArr []) r Hf Hs).
    cbn [fst snd]. now rewrite through_unfold.
  - intros props Hs Hj He.
    rewrite (fetchJson_envelope h u o (VArr []) r (VObj props) _
               Hf Hs Hj eq_refl).
    rewrite He. cbn [fst snd get]. now rewrite through_unfold.
Qed.

Lemma reservation_queries_settle_as_formatters_decide_witness :
  exists e,
    perform
      (Fixtures.answering
         (Return {| status := 200;
                    content := Return
                      (VObj [("data", VObj [("reservation_id", VNum 1)])]) |}))
      (CallReadReservations (VNum 1)) None
    = ([EFetch (ResourceURL (URL_of_text "http://localhost:5001/reservations/1"))
          {| method := None; init_headers := headers; body := None;
             signal := None |}; EJson],
       Rejected e).
Proof.
  eexists.
  apply (proj2 (reservation_queries_settle_as_formatters_decide
           (Fixtures.answering
              (Return {| status := 200;
                         content := Return
                           (VObj [("data",
                                   VObj [("reservation_id", VNum 1)])]) |}))
           (CallReadReservations (VNum 1)) None
           (ResourceURL (URL_of_text "http://localhost:5001/reservations/1"))
           {| method := None; init_headers := headers; body := None;
              signal := None |}
           {| status := 200;
              content := Return
                (VObj [("data", VObj [("reservation_id", VNum 1)])]) |}
           eq_refl (or_introl eq_refl) eq_refl)
         [("data", VObj [("reservation_id", VNum 1)])]);
    [discriminate | reflexivity | reflexivity].
Defined.
